(** * complaint-pythonapi: the HTTP handlers of [function_app.py]

    A shallow embedding of the four Azure Functions handlers
    ([process_complaint], [save_response], [get_roles],
    [get_saved_responses]) and of the module-level configuration check,
    followed by the properties the specification states about them.

    Python values are an inductive type, dictionaries are finite maps,
    exceptions are data, and the external services (completion service,
    blob store, SQL database, clock, uuid source) are oracles of a section
    whose effects are recorded in an explicit [world]. *)

From Stdlib Require Import ZArith NArith QArith List Floats Ascii String.
From stdpp Require Import base option list gmap.

Local Open Scope Z_scope.

(** ** Python strings *)

(** A Python [str] is a sequence of Unicode code points. *)
Abbreviation str := (list N).

(** A source literal, written in ASCII, as a [str]. *)
Definition py (s : string) : str :=
  List.map N_of_ascii (list_ascii_of_string s).

(** [str.isspace] for one character: the code points CPython's
    [_PyUnicode_IsWhitespace] accepts. *)
Definition isspace (c : N) : bool :=
  ((9 <=? c) && (c <=? 13) || (28 <=? c) && (c <=? 32)
   || (c =? 133) || (c =? 160) || (c =? 5760)
   || (8192 <=? c) && (c <=? 8202)
   || (c =? 8232) || (c =? 8233) || (c =? 8239) || (c =? 8287)
   || (c =? 12288))%N.

Fixpoint lstrip (s : str) : str :=
  match s with
  | c :: s' => if isspace c then lstrip s' else s
  | [] => []
  end.

Definition rstrip (s : str) : str := rev (lstrip (rev s)).

(** [s.strip()] with no argument. *)
Definition strip (s : str) : str := rstrip (lstrip s).

(** ** Python values (what [json.loads] builds, what [json.dumps] reads) *)

#[local] Unset Elimination Schemes.
Inductive value : Type :=
| VNone
| VBool (b : bool)
| VInt (z : Z)
| VFloat (f : float)
| VStr (s : str)
| VList (l : list value)
| VDict (d : gmap str value).
#[local] Set Elimination Schemes.

(** Truth value testing ([bool(v)], [if v], [not v]). *)
Definition truthy (v : value) : bool :=
  match v with
  | VNone => false
  | VBool b => b
  | VInt z => negb (z =? 0)
  | VFloat f => negb (PrimFloat.eqb f 0%float)
  | VStr s => negb (Nat.eqb (length s) 0)
  | VList l => negb (Nat.eqb (length l) 0)
  | VDict d => negb (Nat.eqb (size d) 0)
  end.

(** [v == s] for a value [v] and a string literal [s]. *)
Definition eq_str (v : value) (s : str) : bool :=
  match v with
  | VStr t => bool_decide (t = s)
  | _ => false
  end.

(** Truth value of an optional string ([None] and [""] are false), as
    [os.getenv] and [req.form.get] return them. *)
Definition truthy_str (o : option str) : bool :=
  match o with
  | Some (_ :: _) => true
  | _ => false
  end.

(** The builtin [all] over a list of truth values. *)
Definition all (l : list bool) : bool := forallb id l.

(** ** Exceptions *)

Inductive exn : Type :=
| ValueError (msg : str)
| AttributeError
| TypeError
| IndexError
| RecursionError
| OpenAIError
| pyodbc_Error
| OtherException (name : str).

(** ** HTTP requests and responses *)

(** A file of a multipart form (werkzeug's [FileStorage]). *)
Record FileStorage : Type := {
  filename : str;
  content : list Byte.byte
}.

(** [bool(file)] is [bool(file.filename)]. *)
Definition file_truthy (f : option FileStorage) : bool :=
  match f with
  | Some f => negb (Nat.eqb (length (filename f)) 0)
  | None => false
  end.

(** The request body as [get_json] sees it: no body; a body that
    [json.loads] rejects (bytes that are not UTF-8, text that is not JSON);
    a body nested deeper than the recursion limit of the interpreter, well
    formed or not; a body that [json.loads] turns into the value [v]. *)
Inductive http_body : Type :=
| NoBody
| Malformed
| TooDeep
| JsonBody (v : value).

Record form_data : Type := {
  form : gmap str str;
  files : gmap str FileStorage
}.

Record HttpRequest : Type := {
  method : str;
  url : str;
  body : http_body;
  (** what parsing the body as form data gives: the fields and files, or
      the exception the parser raised *)
  parsed_form : exn + form_data
}.

(** [req.get_json()]: [json.loads] of the body. An absent or malformed
    body raises [ValueError] ([JSONDecodeError] and [UnicodeDecodeError] are
    subclasses of it); a body nested too deep raises [RecursionError], which
    is no [ValueError]. *)
Definition get_json (req : HttpRequest) : exn + value :=
  match body req with
  | JsonBody v => inr v
  | NoBody | Malformed => inl (ValueError (py "invalid JSON"))
  | TooDeep => inl RecursionError
  end.

(** The body of a response: a plain text, or the text [json.dumps] makes of
    a value. *)
Inductive response_body : Type :=
| Text (s : str)
| Json (v : value).

Record HttpResponse : Type := {
  resp_body : response_body;
  status_code : Z;
  mimetype : option str;
  headers : gmap str str
}.

(** The two ways the handlers build a response. *)
Definition cors_headers : gmap str str :=
  {[ py "Access-Control-Allow-Origin" := py "*" ]}.

(** [func.HttpResponse(json.dumps(v), mimetype="application/json",
    status_code=code, headers={"Access-Control-Allow-Origin": "*"})] *)
Definition json_response (v : value) (code : Z) : HttpResponse :=
  {| resp_body := Json v;
     status_code := code;
     mimetype := Some (py "application/json");
     headers := cors_headers |}.

(** [func.HttpResponse(text, status_code=code)] *)
Definition plain_response (text : str) (code : Z) : HttpResponse :=
  {| resp_body := Text text;
     status_code := code;
     mimetype := None;
     headers := ∅ |}.

(** [{"error": msg}] *)
Definition error_object (msg : string) : value :=
  VDict {[ py "error" := VStr (py msg) ]}.

(** ** Module initialisation (lines 14-44) *)

Record settings : Type := {
  AZURE_OPENAI_ENDPOINT : option str;
  AZURE_OPENAI_API_KEY : option str;
  AZURE_OPENAI_DEPLOYMENT : option str;
  AZURE_OPENAI_API_VERSION : option str;
  SQL_CONNECTION_STRING : option str;
  STORAGE_CONNECTION_STRING : option str;
  STORAGE_CONTAINER_NAME : option str
}.

(** The seven [os.getenv] calls; [environ] is the process environment. *)
Definition read_environment (environ : gmap str str) : settings :=
  {| AZURE_OPENAI_ENDPOINT := environ !! py "AZURE_OPENAI_ENDPOINT";
     AZURE_OPENAI_API_KEY := environ !! py "AZURE_OPENAI_API_KEY";
     AZURE_OPENAI_DEPLOYMENT := environ !! py "AZURE_OPENAI_DEPLOYMENT";
     AZURE_OPENAI_API_VERSION := environ !! py "AZURE_OPENAI_API_VERSION";
     SQL_CONNECTION_STRING := environ !! py "SQL_CONNECTION_STRING";
     STORAGE_CONNECTION_STRING := environ !! py "STORAGE_CONNECTION_STRING";
     STORAGE_CONTAINER_NAME := environ !! py "STORAGE_CONTAINER_NAME" |}.

(** The three [if not ...: raise ValueError(...)] blocks, in order. *)
Definition validate_configuration (s : settings) : exn + unit :=
  if negb (all [truthy_str (AZURE_OPENAI_ENDPOINT s);
                truthy_str (AZURE_OPENAI_API_KEY s);
                truthy_str (AZURE_OPENAI_DEPLOYMENT s)])
  then inl (ValueError (py "Azure OpenAI configuration is incomplete."))
  else if negb (truthy_str (SQL_CONNECTION_STRING s))
  then inl (ValueError (py "SQL configuration is incomplete."))
  else if negb (truthy_str (STORAGE_CONNECTION_STRING s))
  then inl (ValueError (py "Storage configuration is incomplete."))
  else inr tt.

Section Startup.

(** The two service clients built at import time. Their constructors belong
    to the client libraries: they are given the arguments the module passes
    and either raise or return a handle. *)
Variables AzureOpenAI_client BlobServiceClient : Type.
Variable AzureOpenAI :
  option str -> option str -> option str -> exn + AzureOpenAI_client.
Variable from_connection_string : option str -> exn + BlobServiceClient.

(** Lines 38-44: [client = AzureOpenAI(azure_endpoint=..., api_key=...,
    api_version=...)] and [blob_service_client =
    BlobServiceClient.from_connection_string(STORAGE_CONNECTION_STRING)]. *)
Definition build_clients (s : settings)
  : exn + (AzureOpenAI_client * BlobServiceClient) :=
  match AzureOpenAI (AZURE_OPENAI_ENDPOINT s) (AZURE_OPENAI_API_KEY s)
                    (AZURE_OPENAI_API_VERSION s) with
  | inl e => inl e
  | inr client =>
      match from_connection_string (STORAGE_CONNECTION_STRING s) with
      | inl e => inl e
      | inr blob_service_client => inr (client, blob_service_client)
      end
  end.

(** Importing the module: the process starts iff this returns [inr]. *)
Definition module_init (environ : gmap str str)
  : exn + (settings * (AzureOpenAI_client * BlobServiceClient)) :=
  let s := read_environment environ in
  match validate_configuration s with
  | inl e => inl e
  | inr _ =>
      match build_clients s with
      | inl e => inl e
      | inr clients => inr (s, clients)
      end
  end.

End Startup.

Arguments build_clients {_ _} _ _ _.
Arguments module_init {_ _} _ _ _.

(** ** The external world *)

Record datetime : Type := {
  year : Z; month : Z; day : Z;
  hour : Z; minute : Z; second : Z; microsecond : Z
}.

(** The keyword arguments of one [client.chat.completions.create] call. *)
Record chat_request : Type := {
  model : option str;
  messages : list (str * str);   (* role, content *)
  max_tokens : Z;
  temperature : Q;
  timeout : Z
}.

(** The nine values of one [INSERT INTO ComplaintResponses]; the text
    columns hold what [req.form.get] returned. *)
Record row : Type := {
  ResponseId : str;
  Complaint : str;
  OriginalResponse : option str;
  EditedResponse : option str;
  OriginalCategory : option str;
  EditedCategory : option str;
  DocumentUrl : str;
  SavedAt : datetime;
  IsCorrectCategory : bool
}.

(** What the handlers can change outside the process. *)
Record world : Type := {
  (** the calls issued to the completion service, oldest first *)
  completion_log : list chat_request;
  (** the container: blob name to content *)
  blob_store : gmap str (list Byte.byte);
  (** the committed rows of the table, oldest first *)
  ComplaintResponses : list row
}.

Definition log_call (r : chat_request) (w : world) : world :=
  {| completion_log := completion_log w ++ [r];
     blob_store := blob_store w;
     ComplaintResponses := ComplaintResponses w |}.

Definition put_blob (blob_name : str) (data : list Byte.byte) (w : world) : world :=
  {| completion_log := completion_log w;
     blob_store := <[blob_name := data]> (blob_store w);
     ComplaintResponses := ComplaintResponses w |}.

Definition insert_row (r : row) (w : world) : world :=
  {| completion_log := completion_log w;
     blob_store := blob_store w;
     ComplaintResponses := ComplaintResponses w ++ [r] |}.

(** The steps of a database session that can raise. *)
Inductive db_step : Type :=
| Connect | Cursor | Execute | Fetch | Commit | CursorClose | ConnClose.

(** ** Computations that change the world or raise *)

Definition M (A : Type) : Type := world -> (exn + A) * world.

#[global] Instance M_ret : MRet M := fun A a w => (inr a, w).

#[global] Instance M_bind : MBind M := fun A B k m w =>
  match m w with
  | (inr a, w') => k a w'
  | (inl e, w') => (inl e, w')
  end.

Definition raise {A : Type} (e : exn) : M A := fun w => (inl e, w).

(** A pure step that may raise. *)
Definition lift {A : Type} (r : exn + A) : M A := fun w => (r, w).

(** [try: body / except ...: handler]; [handler] receives the exception. *)
Definition try_except {A : Type} (body : M A) (handler : exn -> M A) : M A :=
  fun w =>
    match body w with
    | (inl e, w') => handler e w'
    | r => r
    end.

(** ** Operations on values that can raise *)

(** [v.get(key, default)]: only a [dict] has the method. *)
Definition py_get (v : value) (key : str) (dflt : value) : exn + value :=
  match v with
  | VDict d => inr (default dflt (d !! key))
  | _ => inl AttributeError
  end.

(** Iterating over a value. A [dict] gives its keys and a [str] its
    characters. *)
Definition py_iter (v : value) : exn + list value :=
  match v with
  | VList l => inr l
  | VDict d => inr ((fun kv => VStr kv.1) <$> map_to_list d)
  | VStr s => inr ((fun c => VStr [c]) <$> s)
  | VNone | VBool _ | VInt _ | VFloat _ => inl TypeError
  end.

(** [choices[0].message.content.strip()]: [IndexError] when there is no
    choice, [AttributeError] when the content is [None]. *)
Definition first_content_stripped (choices : list (option str)) : exn + str :=
  match choices with
  | [] => inl IndexError
  | None :: _ => inl AttributeError
  | Some content :: _ => inr (strip content)
  end.

(** ** The handlers *)

Definition valid_categories : list str :=
  [py "Credit Cards"; py "Channels"; py "Staff"; py "Banking & Savings"].

(** Lines 103-105: a category outside the list is replaced. *)
Definition fallback_category (category : str) : str :=
  if bool_decide (category ∈ valid_categories)
  then category
  else py "Banking & Savings".

(** Lines 107-113: [result = {"category": category, "response":
    generated_response}] returned with status 200. *)
Definition complaint_result (category response : str) : HttpResponse :=
  json_response
    (VDict (<[py "category" := VStr category]> {[ py "response" := VStr response ]}))
    200.

(** Line 164. *)
Definition is_correct_category
    (original_category edited_category : option str) : bool :=
  match original_category, edited_category with
  | Some o, Some e => bool_decide (o = e)
  | _, _ => false
  end.

Definition response_prompt : str :=
  py ("You are a professional customer service agent. Draft a polite, empathetic, "
      ++ "and concise response to the customer's complaint based on the provided text "
      ++ "and investigation findings.").

Definition category_prompt : str :=
  py ("Classify the following complaint into one of these categories: Credit Cards, Channels, Staff, Banking & Savings. "
      ++ "Return only the category name.").

Section Handlers.

(** The module globals the handlers read. *)
Variable config : settings.

(** [str(v)] of a value that is not a string, as an f-string formats it. *)
Variable format_value : value -> str.

(** The completion service: what [client.chat.completions.create] does
    with a request, given the world it is called in: it raises, or returns
    the [message.content] of each choice. *)
Variable completions_create : world -> chat_request -> exn + list (option str).

(** [uuid.uuid4()] rendered by [str], [datetime.now()], [d.isoformat()]. *)
Variable uuid4 : world -> str.
Variable datetime_now : world -> datetime.
Variable isoformat : datetime -> str.

(** The blob store: whether [get_blob_client(...).upload_blob(...)] raises
    for a container and blob name, and the [url] of a blob client. *)
Variable upload_fault : world -> option str -> str -> option exn.
Variable blob_url : option str -> str -> str.

(** The database: whether a step of a session raises, and the surrogate
    key [Id] the table gave to its n-th row. *)
Variable pyodbc_fault : world -> db_step -> option exn.
Variable identity : nat -> Z.

(** [f"{v}"] *)
Definition fmt (v : value) : str :=
  match v with
  | VStr s => s
  | _ => format_value v
  end.

(** [f"Complaint: {complaint}\nFindings: {findings}"] *)
Definition user_content (complaint findings : value) : str :=
  py "Complaint: " ++ fmt complaint ++ [10%N] ++ py "Findings: " ++ fmt findings.

Definition response_request (complaint findings : value) : chat_request :=
  {| model := AZURE_OPENAI_DEPLOYMENT config;
     messages := [(py "system", response_prompt);
                  (py "user", user_content complaint findings)];
     max_tokens := 500;
     temperature := (7 # 10)%Q;
     timeout := 10 |}.

Definition category_request (complaint findings : value) : chat_request :=
  {| model := AZURE_OPENAI_DEPLOYMENT config;
     messages := [(py "system", category_prompt);
                  (py "user", user_content complaint findings)];
     max_tokens := 20;
     temperature := (3 # 10)%Q;
     timeout := 10 |}.

(** One call to the completion service: the request is logged, then the
    service answers or raises. *)
Definition create (r : chat_request) : M (list (option str)) := fun w =>
  (completions_create w r, log_call r w).

(** The three [except] clauses of [process_complaint]. *)
Definition process_complaint_except (e : exn) : M HttpResponse :=
  match e with
  | ValueError _ =>
      mret (json_response (error_object "Invalid JSON payload.") 400)
  | OpenAIError =>
      mret (json_response
              (error_object "Failed to generate response due to OpenAI service issue.") 500)
  | _ =>
      mret (json_response
              (error_object "An error occurred while processing your request.") 500)
  end.

Definition process_complaint (req : HttpRequest) : M HttpResponse :=
  if negb (bool_decide (method req = py "POST"))
  then mret (plain_response (py "Method not allowed. Use POST.") 405)
  else
    try_except
      (req_body ← lift (get_json req);
       complaint ← lift (py_get req_body (py "complaint") VNone);
       findings ← lift (py_get req_body (py "findings") (VStr (py "")));
       if negb (truthy complaint)
       then mret (json_response (error_object "Complaint text is required.") 400)
       else
         response_result ← create (response_request complaint findings);
         generated_response ← lift (first_content_stripped response_result);
         category_result ← create (category_request complaint findings);
         category ← lift (first_content_stripped category_result);
         let category := fallback_category category in
         mret (complaint_result category generated_response))
      process_complaint_except.

(** [blob_client.upload_blob(data, overwrite=True)] on the client of
    [container] and [blob_name]: raises, or stores the bytes under the
    name, replacing what was there. *)
Definition upload_blob (container : option str) (blob_name : str)
    (data : list Byte.byte) : M unit := fun w =>
  match upload_fault w container blob_name with
  | Some e => (inl e, w)
  | None => (inr tt, put_blob blob_name data w)
  end.

(** A step of a database session that changes nothing when it succeeds. *)
Definition pyodbc (step : db_step) : M unit := fun w =>
  match pyodbc_fault w step with
  | Some e => (inl e, w)
  | None => (inr tt, w)
  end.

(** [conn.commit()] after the [INSERT] of [r]: raises, or the row is in
    the table. *)
Definition commit_insert (r : row) : M unit := fun w =>
  match pyodbc_fault w Commit with
  | Some e => (inl e, w)
  | None => (inr tt, insert_row r w)
  end.

Definition read_world {A : Type} (f : world -> A) : M A := fun w => (inr (f w), w).

(** The three [except] clauses of [save_response]. *)
Definition save_response_except (e : exn) : M HttpResponse :=
  match e with
  | ValueError _ =>
      mret (json_response (error_object "Invalid form data.") 400)
  | pyodbc_Error =>
      mret (json_response
              (error_object "Failed to save response due to database issue.") 500)
  | _ =>
      mret (json_response
              (error_object "An error occurred while saving the response.") 500)
  end.

Definition save_response (req : HttpRequest) : M HttpResponse :=
  if negb (bool_decide (method req = py "POST"))
  then mret (plain_response (py "Method not allowed. Use POST.") 405)
  else
    try_except
      (fd ← lift (parsed_form req);
       let complaint := default (py "Unknown") (form fd !! py "complaint") in
       let original_response := form fd !! py "originalResponse" in
       let edited_response := form fd !! py "editedResponse" in
       let original_category := form fd !! py "originalCategory" in
       let edited_category := form fd !! py "editedCategory" in
       let file := files fd !! py "document" in
       if negb (all [truthy_str original_response; truthy_str edited_response;
                     truthy_str original_category; truthy_str edited_category])
       then mret (json_response
                    (error_object "All response and category fields are required.") 400)
       else
         let is_correct := is_correct_category original_category edited_category in
         response_id ← read_world uuid4;
         document_url ←
           match file with
           | Some f =>
               if file_truthy file
               then
                 let folder_name := response_id in
                 let blob_name := folder_name ++ py "/" ++ filename f in
                 _ ← upload_blob (STORAGE_CONTAINER_NAME config) blob_name (content f);
                 mret (blob_url (STORAGE_CONTAINER_NAME config) blob_name)
               else mret (py "")
           | None => mret (py "")
           end;
         _ ← pyodbc Connect;
         _ ← pyodbc Cursor;
         now ← read_world datetime_now;
         _ ← pyodbc Execute;
         _ ← commit_insert
               {| ResponseId := response_id;
                  Complaint := complaint;
                  OriginalResponse := original_response;
                  EditedResponse := edited_response;
                  OriginalCategory := original_category;
                  EditedCategory := edited_category;
                  DocumentUrl := document_url;
                  SavedAt := now;
                  IsCorrectCategory := is_correct |};
         _ ← pyodbc CursorClose;
         _ ← pyodbc ConnClose;
         mret (json_response
                 (VDict (<[py "status" := VStr (py "Response and document saved successfully")]>
                           {[ py "responseId" := VStr response_id ]}))
                 200))
      save_response_except.

(** *** GetRoles *)

Definition role_claim_uri : str :=
  py "http://schemas.microsoft.com/ws/2008/06/identity/claims/role".

(** The list comprehension of [get_roles_claims] over the elements of
    [user_claims]: [claim.get] raises on an element that is no [dict], and
    on a [dict] it cannot raise, so that evaluating both lookups before the
    condition gives what the short-circuit evaluation gives. *)
Fixpoint role_values (user_claims : list value) : exn + list value :=
  match user_claims with
  | [] => inr []
  | claim :: rest =>
      match py_get claim (py "typ") VNone, py_get claim (py "val") VNone with
      | inr typ, inr val =>
          match role_values rest with
          | inr vals =>
              inr (if (eq_str typ (py "roles") || eq_str typ role_claim_uri)
                      && truthy val
                   then val :: vals
                   else vals)
          | inl e => inl e
          end
      | inl e, _ | _, inl e => inl e
      end
  end.

Definition get_roles_claims (req_body : value) : exn + list value :=
  match py_get req_body (py "claims") (VList []) with
  | inr user_claims =>
      match py_iter user_claims with
      | inr elements => role_values elements
      | inl e => inl e
      end
  | inl e => inl e
  end.

(** One turn of the [for role in claim_roles] loop on the list [roles]. *)
Definition push_role (roles : list str) (role : value) : list str :=
  if eq_str role (py "complaintsysadmin") then roles ++ [py "complaintsysadmin"]
  else if eq_str role (py "complaintsysuser") then roles ++ [py "complaintsysuser"]
  else if eq_str role (py "guest") then roles ++ [py "temp_guest"]
  else roles.

(** Lines 244-268: the roles computed from the request body. *)
Definition roles_of_body (req_body : value) : exn + list str :=
  match get_roles_claims req_body with
  | inr claim_roles => inr (fold_left push_role claim_roles [])
  | inl e => inl e
  end.

(** [{"roles": roles}] with status 200. *)
Definition roles_response (roles : list str) : HttpResponse :=
  json_response (VDict {[ py "roles" := VList (VStr <$> roles) ]}) 200.

(** Lines 237-242: the body is read on POST only, and a [ValueError] of
    [get_json] gives the empty dict. *)
Definition read_body (req : HttpRequest) : M value :=
  try_except
    (if bool_decide (method req = py "POST")
     then lift (get_json req)
     else mret (VDict ∅))
    (fun e =>
       match e with
       | ValueError _ => mret (VDict ∅)
       | _ => raise e
       end).

(** The handler has no [except] around the rest: an exception of
    [get_roles_claims] leaves it. *)
Definition get_roles (req : HttpRequest) : M HttpResponse :=
  req_body ← read_body req;
  roles ← lift (roles_of_body req_body);
  mret (roles_response roles).

(** *** GetSavedResponses *)

(** A column value as the database driver returns it. *)
Inductive cell : Type :=
| CNull
| CInt (z : Z)
| CStr (s : str)
| CDatetime (d : datetime).

Definition cell_of_option (o : option str) : cell :=
  match o with
  | Some s => CStr s
  | None => CNull
  end.

(** The nine selected columns, as [cursor.description] names them. *)
Definition columns : list str :=
  [py "Id"; py "ResponseId"; py "Complaint"; py "OriginalResponse";
   py "EditedResponse"; py "OriginalCategory"; py "EditedCategory";
   py "DocumentUrl"; py "SavedAt"].

(** The tuple [fetchall] returns for the n-th row of the table. *)
Definition fetched (n : nat) (r : row) : list cell :=
  [CInt (identity n); CStr (ResponseId r); CStr (Complaint r);
   cell_of_option (OriginalResponse r); cell_of_option (EditedResponse r);
   cell_of_option (OriginalCategory r); cell_of_option (EditedCategory r);
   CStr (DocumentUrl r); CDatetime (SavedAt r)].

(** [dict(zip(columns, row))] *)
Definition row_dict (cells : list cell) : gmap str cell :=
  list_to_map (zip columns cells).

(** The body of the [for result in results] loop. *)
Definition saved_at_iso (result : gmap str cell) : gmap str cell :=
  match result !! py "SavedAt" with
  | Some (CDatetime d) => <[py "SavedAt" := CStr (isoformat d)]> result
  | _ => result
  end.

(** [json.dumps] of a column value: a [datetime] is not serializable. *)
Definition cell_value (c : cell) : exn + value :=
  match c with
  | CNull => inr VNone
  | CInt z => inr (VInt z)
  | CStr s => inr (VStr s)
  | CDatetime _ => inl TypeError
  end.

Definition is_datetime (c : cell) : bool :=
  match c with
  | CDatetime _ => true
  | _ => false
  end.

Definition plain_value (c : cell) : value :=
  match cell_value c with
  | inr v => v
  | inl _ => VNone
  end.

(** [json.dumps({"responses": results})] *)
Definition dumps_responses (results : list (gmap str cell)) : exn + value :=
  if existsb (fun result => existsb (fun kv => is_datetime kv.2) (map_to_list result))
             results
  then inl TypeError
  else inr (VDict {[ py "responses" :=
                       VList ((fun result => VDict (plain_value <$> result)) <$> results) ]}).

(** The two [except] clauses of [get_saved_responses]. *)
Definition get_saved_responses_except (e : exn) : M HttpResponse :=
  match e with
  | pyodbc_Error =>
      mret (json_response
              (error_object "Failed to retrieve saved responses due to database issue.") 500)
  | _ =>
      mret (json_response
              (error_object "An error occurred while retrieving saved responses.") 500)
  end.

Definition get_saved_responses (req : HttpRequest) : M HttpResponse :=
  if negb (bool_decide (method req = py "GET"))
  then mret (plain_response (py "Method not allowed. Use GET.") 405)
  else
    try_except
      (_ ← pyodbc Connect;
       _ ← pyodbc Cursor;
       _ ← pyodbc Execute;
       _ ← pyodbc Fetch;
       table ← read_world ComplaintResponses;
       let results := (fun cells => row_dict cells) <$> imap fetched table in
       let results := saved_at_iso <$> results in
       _ ← pyodbc CursorClose;
       _ ← pyodbc ConnClose;
       payload ← lift (dumps_responses results);
       mret (json_response payload 200))
      get_saved_responses_except.

End Handlers.

(** ** The roles handler as the specification words it *)

(** The claim's [typ] is "roles" or the well-known role-claim URI. *)
Definition is_role_typ (claim : gmap str value) : bool :=
  match claim !! py "typ" with
  | Some typ => eq_str typ (py "roles") || eq_str typ role_claim_uri
  | None => false
  end.

(** The claim has a [val], and it is not empty. *)
Definition nonempty_val (claim : gmap str value) : bool :=
  match claim !! py "val" with
  | None | Some VNone | Some (VStr []) => false
  | Some _ => true
  end.

(** The fixed lookup: each known value to the role it stands for. *)
Definition role_lookup (val : value) : option str :=
  if eq_str val (py "complaintsysadmin") then Some (py "complaintsysadmin")
  else if eq_str val (py "complaintsysuser") then Some (py "complaintsysuser")
  else if eq_str val (py "guest") then Some (py "temp_guest")
  else None.

(** Keep the matching claims in order, take their values, map them through
    the lookup and drop the rest. *)
Definition roles_spec (claims : list (gmap str value)) : list str :=
  omap (fun claim => role_lookup (default VNone (claim !! py "val")))
       (List.filter (fun claim => is_role_typ claim && nonempty_val claim) claims).

(** The four form fields [save_response] requires. *)
Definition required_fields : list str :=
  [py "originalResponse"; py "editedResponse";
   py "originalCategory"; py "editedCategory"].

(** The names the configuration check tests. *)
Definition checked_variables : list str :=
  [py "AZURE_OPENAI_ENDPOINT"; py "AZURE_OPENAI_API_KEY";
   py "AZURE_OPENAI_DEPLOYMENT"; py "SQL_CONNECTION_STRING";
   py "STORAGE_CONNECTION_STRING"].

(** The names the specification lists as required. *)
Definition required_variables : list str :=
  checked_variables ++ [py "AZURE_OPENAI_API_VERSION"; py "STORAGE_CONTAINER_NAME"].

(** ** Notions the properties are stated with *)

(** The condition of the list comprehension on a claim that is a [dict]. *)
Definition kept_by_code (claim : gmap str value) : bool :=
  (eq_str (default VNone (claim !! py "typ")) (py "roles")
   || eq_str (default VNone (claim !! py "typ")) role_claim_uri)
  && truthy (default VNone (claim !! py "val")).

(** The response carries [Access-Control-Allow-Origin: *]. *)
Definition has_cors (resp : HttpResponse) : Prop :=
  headers resp !! py "Access-Control-Allow-Origin" = Some (py "*").

(** The header is there unless the status is 405, and then there is no
    header at all. *)
Definition cors_unless_405 (resp : HttpResponse) : Prop :=
  (status_code resp ≠ 405 → has_cors resp)
  ∧ (status_code resp = 405 → headers resp = ∅).

(** Every response the computation can return satisfies [P]. *)
Definition answers (P : HttpResponse → Prop) (m : M HttpResponse) : Prop :=
  ∀ w resp w', m w = (inr resp, w') → P resp.


(** [Q] holds of the outcome of [m] started in [w]: of what it returns or
    raises, and of the world it leaves. *)
Definition wp {A : Type} (m : M A) (Q : exn + A → world → Prop) (w : world) : Prop :=
  Q (m w).1 (m w).2.

(** The statuses the handlers answer with. *)
Definition handler_statuses : list Z := [200; 400; 405; 500].

(** Only the log of completion calls differs between [w] and [w'], which
    has [calls] more. *)
Definition only_logs (calls : list chat_request) (w w' : world) : Prop :=
  completion_log w' = completion_log w ++ calls
  ∧ blob_store w' = blob_store w
  ∧ ComplaintResponses w' = ComplaintResponses w.

(** The row [r] holds what the form [fd] holds: the complaint or its
    placeholder, the four required fields, none of them empty, and the
    comparison of the two categories. *)
Definition row_of_form (fd : form_data) (r : row) : Prop :=
  Complaint r = default (py "Unknown") (form fd !! py "complaint")
  ∧ OriginalResponse r = form fd !! py "originalResponse"
  ∧ EditedResponse r = form fd !! py "editedResponse"
  ∧ OriginalCategory r = form fd !! py "originalCategory"
  ∧ EditedCategory r = form fd !! py "editedCategory"
  ∧ (∀ k, k ∈ required_fields → truthy_str (form fd !! k) = true)
  ∧ IsCorrectCategory r
    = is_correct_category (OriginalCategory r) (EditedCategory r).

(** What every row of the table satisfies when [save_response] is its only
    writer: the four required columns are set and not empty, and
    [IsCorrectCategory] says whether the two categories are equal. *)
Definition row_consistent (r : row) : Prop :=
  truthy_str (OriginalResponse r) = true
  ∧ truthy_str (EditedResponse r) = true
  ∧ truthy_str (OriginalCategory r) = true
  ∧ truthy_str (EditedCategory r) = true
  ∧ (IsCorrectCategory r = true ↔ OriginalCategory r = EditedCategory r).

(** [{"status": ..., "responseId": response_id}] with status 200. *)
Definition saved_response (response_id : str) : HttpResponse :=
  json_response
    (VDict (<[py "status" := VStr (py "Response and document saved successfully")]>
              {[ py "responseId" := VStr response_id ]}))
    200.

Definition value_of_option (o : option str) : value :=
  match o with
  | Some s => VStr s
  | None => VNone
  end.

(** The n-th row of the table as an entry of the listing: the nine
    selected columns, [SavedAt] in ISO format. *)
Definition listed (isoformat : datetime → str) (identity : nat → Z)
    (n : nat) (r : row) : value :=
  VDict (list_to_map
           [(py "Id", VInt (identity n));
            (py "ResponseId", VStr (ResponseId r));
            (py "Complaint", VStr (Complaint r));
            (py "OriginalResponse", value_of_option (OriginalResponse r));
            (py "EditedResponse", value_of_option (EditedResponse r));
            (py "OriginalCategory", value_of_option (OriginalCategory r));
            (py "EditedCategory", value_of_option (EditedCategory r));
            (py "DocumentUrl", VStr (DocumentUrl r));
            (py "SavedAt", VStr (isoformat (SavedAt r)))]).

(** [{"responses": entries}] with status 200. *)
Definition listing_response (entries : list value) : HttpResponse :=
  json_response (VDict {[ py "responses" := VList entries ]}) 200.

(** The steps of the session of [get_saved_responses]. *)
Definition listing_steps : list db_step :=
  [Connect; Cursor; Execute; Fetch; CursorClose; ConnClose].

(** The roles [get_roles] can name. *)
Definition role_vocabulary : list str :=
  [py "complaintsysadmin"; py "complaintsysuser"; py "temp_guest"].

(** What a handler that takes the method [m] only does with a request: it
    answers 405 exactly when the method is another one, and then the world
    is untouched and the response has no header. *)
Definition guarded (req : HttpRequest) (m : str) (w : world)
    (res : exn + HttpResponse) (w' : world) : Prop :=
  ∀ resp, res = inr resp →
          (status_code resp = 405 ↔ method req ≠ m)
          ∧ (status_code resp = 405 → w' = w ∧ headers resp = ∅).

(** ** Concrete inputs *)

Module Samples.

Definition environ : gmap str str :=
  list_to_map
    [(py "AZURE_OPENAI_ENDPOINT", py "https://complaints.openai.azure.com/");
     (py "AZURE_OPENAI_API_KEY", py "key");
     (py "AZURE_OPENAI_DEPLOYMENT", py "gpt-4o");
     (py "AZURE_OPENAI_API_VERSION", py "2024-02-01");
     (py "SQL_CONNECTION_STRING", py "Driver=ODBC;Server=db");
     (py "STORAGE_CONNECTION_STRING", py "AccountName=complaints");
     (py "STORAGE_CONTAINER_NAME", py "documents")].

(** The same environment without the blob container name. *)
Definition environ_without_container : gmap str str :=
  delete (py "STORAGE_CONTAINER_NAME") environ.

(** The same environment without the database connection string. *)
Definition environ_without_sql : gmap str str :=
  delete (py "SQL_CONNECTION_STRING") environ.

(** The same environment with the database connection string set to the
    empty string. *)
Definition environ_with_empty_sql : gmap str str :=
  <[py "SQL_CONNECTION_STRING" := py ""]> environ.

(** Client constructors that insist on every argument they are given. *)
Definition AzureOpenAI (endpoint key version : option str) : exn + unit :=
  if all [truthy_str endpoint; truthy_str key; truthy_str version]
  then inr tt
  else inl (ValueError (py "missing credentials")).

Definition from_connection_string (conn_str : option str) : exn + unit :=
  if truthy_str conn_str
  then inr tt
  else inl (ValueError (py "connection string is empty")).

Definition config : settings := read_environment environ.

(** [str(v)] of a value that is not a string: a placeholder. *)
Definition format_value (v : value) : str := py "<value>".

Definition world0 : world :=
  {| completion_log := []; blob_store := ∅; ComplaintResponses := [] |}.

(** A completion service that answers the drafting request (the one with
    500 tokens) with [draft] and the classification request with [label]. *)
Definition completions (draft label : str) (w : world) (r : chat_request)
  : exn + list (option str) :=
  if bool_decide (max_tokens r = 500) then inr [Some draft] else inr [Some label].

Definition request (m : string) (b : http_body) : HttpRequest :=
  {| method := py m;
     url := py "https://complaints.example/api";
     body := b;
     parsed_form := inr {| form := ∅; files := ∅ |} |}.

(** [{"complaint": "My card was charged twice."}]: no findings. *)
Definition complaint_only : gmap str value :=
  {[ py "complaint" := VStr (py "My card was charged twice.") ]}.

(** Services that never fail, a fixed identifier and a fixed clock. *)
Definition uuid4 (w : world) : str := py "0b6f4c1e-7d2a-4e0b-9a53-1c2d3e4f5a6b".

Definition datetime_now (w : world) : datetime :=
  {| year := 2025; month := 3; day := 14;
     hour := 9; minute := 26; second := 53; microsecond := 0 |}.

Definition isoformat (d : datetime) : str := py "2025-03-14T09:26:53".

Definition upload_fault (w : world) (container : option str) (blob_name : str)
  : option exn := None.

Definition blob_url (container : option str) (blob_name : str) : str :=
  py "https://complaints.blob.core.windows.net/documents/" ++ blob_name.

Definition pyodbc_fault (w : world) (step : db_step) : option exn := None.

(** A form with the four required fields, the two categories equal. *)
Definition full_form : form_data :=
  {| form :=
       list_to_map
         [(py "complaint", py "My card was charged twice.");
          (py "originalResponse", py "We are sorry.");
          (py "editedResponse", py "We are very sorry.");
          (py "originalCategory", py "Staff");
          (py "editedCategory", py "Staff")];
     files := ∅ |}.

(** The same form without the edited category. *)
Definition form_without_edited_category : form_data :=
  {| form := delete (py "editedCategory") (form full_form);
     files := ∅ |}.

Definition post_form (fd : form_data) : HttpRequest :=
  {| method := py "POST";
     url := py "https://complaints.example/api/saveResponse";
     body := Malformed;
     parsed_form := inr fd |}.

Definition claim (typ val : string) : gmap str value :=
  <[py "typ" := VStr (py typ)]> {[ py "val" := VStr (py val) ]}.

(** Five claims: a guest, an unknown role, an administrator under the URI
    claim type, a user under another claim type, and the guest again. *)
Definition claims : list (gmap str value) :=
  [claim "roles" "guest";
   claim "roles" "auditor";
   claim "http://schemas.microsoft.com/ws/2008/06/identity/claims/role"
         "complaintsysadmin";
   claim "groups" "complaintsysuser";
   claim "roles" "guest"].

(** [{"claims": [...]}] *)
Definition claims_body : gmap str value :=
  {[ py "claims" := VList (VDict <$> claims) ]}.

Definition identity (n : nat) : Z := Z.of_nat (S n).

(** A completion service that is down. *)
Definition completions_down (w : world) (r : chat_request)
  : exn + list (option str) := inl OpenAIError.

(** One that answers the drafting request with [draft] and fails on the
    classification request. *)
Definition completions_draft_only (draft : str) (w : world) (r : chat_request)
  : exn + list (option str) :=
  if bool_decide (max_tokens r = 500) then inr [Some draft] else inl OpenAIError.

(** One that returns a completion with no choice. *)
Definition completions_no_choice (w : world) (r : chat_request)
  : exn + list (option str) := inr [].

(** A one-byte attachment named evidence.pdf, and the full form with it. *)
Definition evidence : FileStorage :=
  {| filename := py "evidence.pdf"; content := [Byte.x25] |}.

Definition form_with_file : form_data :=
  {| form := form full_form;
     files := {[ py "document" := evidence ]} |}.

(** A database that is down, one whose connections fail to close, and a
    blob store that is down. *)
Definition pyodbc_down (w : world) (step : db_step) : option exn :=
  Some pyodbc_Error.

Definition pyodbc_close_fails (w : world) (step : db_step) : option exn :=
  match step with
  | ConnClose => Some pyodbc_Error
  | _ => None
  end.

Definition upload_down (w : world) (container : option str) (blob_name : str)
  : option exn := Some (OtherException (py "ServiceRequestError")).

(** The row the full form leaves in the empty table. *)
Definition saved_row : row :=
  {| ResponseId := uuid4 world0;
     Complaint := py "My card was charged twice.";
     OriginalResponse := Some (py "We are sorry.");
     EditedResponse := Some (py "We are very sorry.");
     OriginalCategory := Some (py "Staff");
     EditedCategory := Some (py "Staff");
     DocumentUrl := py "";
     SavedAt := datetime_now world0;
     IsCorrectCategory := true |}.

End Samples.

(** * Properties *)

(** ** Start-up *)

Lemma all_true_iff (l : list bool) : all l = true ↔ ∀ b, b ∈ l → b = true.
Proof.
  unfold all. rewrite forallb_forall. split.
  - intros H b Hb. apply (H b). by apply list_elem_of_In.
  - intros H b Hb. apply H. by apply list_elem_of_In.
Qed.

(** The configuration check passes exactly when the five variables it
    tests are set and not empty. *)
Lemma validate_configuration_passes (environ : gmap str str) :
  validate_configuration (read_environment environ) = inr tt
  ↔ ∀ k, k ∈ checked_variables → truthy_str (environ !! k) = true.
Proof.
  unfold validate_configuration, read_environment, checked_variables; simpl.
  split.
  - intros H k Hk.
    destruct (truthy_str (environ !! py "AZURE_OPENAI_ENDPOINT")) eqn:E1; [|done].
    destruct (truthy_str (environ !! py "AZURE_OPENAI_API_KEY")) eqn:E2; [|done].
    destruct (truthy_str (environ !! py "AZURE_OPENAI_DEPLOYMENT")) eqn:E3; [|done].
    destruct (truthy_str (environ !! py "SQL_CONNECTION_STRING")) eqn:E4; [|done].
    destruct (truthy_str (environ !! py "STORAGE_CONNECTION_STRING")) eqn:E5; [|done].
    repeat (apply elem_of_cons in Hk as [->|Hk]; [done|]).
    by apply elem_of_nil in Hk.
  - intros H.
    rewrite !H; [done | ..];
      repeat first [by apply list_elem_of_here | apply list_elem_of_further].
Qed.

Lemma validate_configuration_raises (s : settings) :
  validate_configuration s = inr tt
  ∨ ∃ msg, validate_configuration s = inl (ValueError msg).
Proof.
  unfold validate_configuration.
  repeat match goal with
         | |- context [if ?b then _ else _] => destruct b
         end; eauto.
Qed.

Section StartupProperties.

Variables AzureOpenAI_client BlobServiceClient : Type.
Variable AzureOpenAI :
  option str -> option str -> option str -> exn + AzureOpenAI_client.
Variable from_connection_string : option str -> exn + BlobServiceClient.

(** C1, as the code has it. If one of the five variables the check tests
    (endpoint, key, deployment name, database connection string, blob-store
    connection string) is absent or empty, importing the module raises
    [ValueError]. With the five set and not empty the check passes, whatever
    the API version and the container name are, and the module is
    initialised as soon as the two client constructors return. *)
Theorem startup_validation (environ : gmap str str) :
  ((∃ k, k ∈ checked_variables ∧ truthy_str (environ !! k) = false) →
   ∃ msg, module_init AzureOpenAI from_connection_string environ
          = inl (ValueError msg))
  ∧ ((∀ k, k ∈ checked_variables → truthy_str (environ !! k) = true) →
     validate_configuration (read_environment environ) = inr tt
     ∧ ∀ clients,
         build_clients AzureOpenAI from_connection_string
                       (read_environment environ) = inr clients →
         module_init AzureOpenAI from_connection_string environ
         = inr (read_environment environ, clients)).
Proof.
  split.
  - intros (k & Hk & Hfalse). unfold module_init.
    destruct (validate_configuration_raises (read_environment environ))
      as [Hok | [msg Hmsg]].
    + pose proof (proj1 (validate_configuration_passes environ) Hok) as Hall.
      rewrite (Hall k Hk) in Hfalse. discriminate.
    + exists msg. by rewrite Hmsg.
  - intros Hall. apply validate_configuration_passes in Hall.
    split; [exact Hall|]. intros clients Hclients.
    unfold module_init. by rewrite Hall, Hclients.
Qed.

End StartupProperties.

(** Witness of [startup_validation]: without the database connection
    string the import raises; with the full environment it succeeds. *)
Lemma startup_validation_witness :
  (∃ msg, module_init Samples.AzureOpenAI Samples.from_connection_string
                      Samples.environ_without_sql = inl (ValueError msg))
  ∧ module_init Samples.AzureOpenAI Samples.from_connection_string
                Samples.environ
    = inr (read_environment Samples.environ, (tt, tt)).
Proof.
  split.
  - apply (proj1 (startup_validation _ _ Samples.AzureOpenAI
                    Samples.from_connection_string Samples.environ_without_sql)).
    exists (py "SQL_CONNECTION_STRING"). split; [|reflexivity].
    unfold checked_variables. do 3 apply list_elem_of_further. apply list_elem_of_here.
  - apply (proj2 (startup_validation _ _ Samples.AzureOpenAI
                    Samples.from_connection_string Samples.environ)).
    + intros k Hk. unfold checked_variables in Hk.
      repeat (apply elem_of_cons in Hk as [->|Hk]; [reflexivity|]).
      by apply elem_of_nil in Hk.
    + reflexivity.
Defined.

(** C1 as stated fails in both directions. The blob container name is one
    of the seven required parameters, it is absent from the first
    environment, and the module is initialised all the same. In the second
    environment the seven parameters are all present, the database
    connection string as the empty string, and the import raises. *)
Lemma startup_without_container_name :
  (py "STORAGE_CONTAINER_NAME" ∈ required_variables
   ∧ Samples.environ_without_container !! py "STORAGE_CONTAINER_NAME" = None
   ∧ module_init Samples.AzureOpenAI Samples.from_connection_string
                 Samples.environ_without_container
     = inr (read_environment Samples.environ_without_container, (tt, tt)))
  ∧ (forallb (fun k => bool_decide (is_Some (Samples.environ_with_empty_sql !! k)))
             required_variables = true
     ∧ module_init Samples.AzureOpenAI Samples.from_connection_string
                   Samples.environ_with_empty_sql
       = inl (ValueError (py "SQL configuration is incomplete."))).
Proof.
  split; [split; [|split] | split].
  - unfold required_variables. apply elem_of_app. right.
    apply list_elem_of_further, list_elem_of_here.
  - reflexivity.
  - reflexivity.
  - reflexivity.
  - reflexivity.
Qed.

(** ** Trimming *)

Lemma lstrip_head (s : str) c t : lstrip s = c :: t → isspace c = false.
Proof.
  induction s as [|a s IH]; simpl; [done|].
  destruct (isspace a) eqn:Ha; [exact IH|].
  intros [= <- _]. exact Ha.
Qed.

Lemma lstrip_nil (s : str) : lstrip s = [] ↔ forallb isspace s = true.
Proof.
  induction s as [|a s IH]; simpl; [done|].
  destruct (isspace a); simpl; [exact IH|]. split; discriminate.
Qed.

Lemma forallb_rev {A} (f : A → bool) (l : list A) :
  forallb f (rev l) = forallb f l.
Proof.
  induction l as [|a l IH]; simpl; [done|].
  rewrite forallb_app, IH. simpl. rewrite andb_true_r. apply andb_comm.
Qed.

(** Trimming leaves nothing exactly when every character is whitespace. *)
Lemma strip_nil (s : str) : strip s = [] ↔ forallb isspace s = true.
Proof.
  unfold strip, rstrip. rewrite <- lstrip_nil. split.
  - intros H. apply (f_equal (@rev N)) in H. rewrite rev_involutive in H.
    simpl in H. apply lstrip_nil in H. rewrite forallb_rev in H.
    destruct (lstrip s) as [|c t] eqn:E; [done|].
    apply lstrip_head in E. simpl in H. rewrite E in H. discriminate.
  - intros ->. reflexivity.
Qed.

Lemma strip_nonempty (s : str) :
  strip s ≠ [] ↔ ∃ c, c ∈ s ∧ isspace c = false.
Proof.
  rewrite strip_nil. split.
  - intros H. destruct (forallb isspace s) eqn:E; [done|].
    clear H. induction s as [|a s IH]; simpl in E; [discriminate|].
    destruct (isspace a) eqn:Ha.
    + destruct (IH E) as (c & Hc & Hsp). exists c. split; [by right | done].
    + exists a. split; [by left | done].
  - intros (c & Hc & Hsp) H. rewrite forallb_forall in H.
    apply list_elem_of_In in Hc. rewrite (H c Hc) in Hsp. discriminate.
Qed.

(** What the fallback keeps is always one of the four labels. *)
Lemma fallback_category_valid (category : str) :
  fallback_category category ∈ valid_categories.
Proof.
  unfold fallback_category. case_bool_decide as H; [exact H|].
  unfold valid_categories. do 3 apply list_elem_of_further. apply list_elem_of_here.
Qed.

Lemma fallback_category_keeps (category : str) :
  category ∈ valid_categories → fallback_category category = category.
Proof. intros H. unfold fallback_category. by rewrite bool_decide_eq_true_2. Qed.

Lemma fallback_category_replaces (category : str) :
  category ∉ valid_categories →
  fallback_category category = py "Banking & Savings".
Proof. intros H. unfold fallback_category. by rewrite bool_decide_eq_false_2. Qed.

(** ** processComplaint *)

(** What the success response holds: status 200 and a JSON object with the
    two fields. *)
Lemma complaint_result_carries (category response : str) :
  status_code (complaint_result category response) = 200
  ∧ ∃ fields : gmap str value,
      resp_body (complaint_result category response) = Json (VDict fields)
      ∧ fields !! py "category" = Some (VStr category)
      ∧ fields !! py "response" = Some (VStr response).
Proof.
  split; [reflexivity|]. eexists. split; [reflexivity|]. split.
  - apply lookup_insert_eq.
  - rewrite lookup_insert_ne by done. apply lookup_singleton_eq.
Qed.

Section ProcessComplaint.

Variable config : settings.
Variable format_value : value -> str.
Variable completions_create : world -> chat_request -> exn + list (option str).

(** The handler on a POST whose body is a JSON object with a complaint
    that is not empty: the two calls in order, each followed by the
    extraction of the first choice, any exception going to the [except]
    clauses. *)
Lemma process_complaint_calls (req : HttpRequest) (w : world) (d : gmap str value) :
  method req = py "POST" →
  body req = JsonBody (VDict d) →
  truthy (default VNone (d !! py "complaint")) = true →
  let complaint := default VNone (d !! py "complaint") in
  let findings := default (VStr (py "")) (d !! py "findings") in
  let w1 := log_call (response_request config format_value complaint findings) w in
  let w2 := log_call (category_request config format_value complaint findings) w1 in
  process_complaint config format_value completions_create req w =
  match completions_create w
          (response_request config format_value complaint findings) with
  | inl e => process_complaint_except e w1
  | inr response_result =>
      match first_content_stripped response_result with
      | inl e => process_complaint_except e w1
      | inr generated_response =>
          match completions_create w1
                  (category_request config format_value complaint findings) with
          | inl e => process_complaint_except e w2
          | inr category_result =>
              match first_content_stripped category_result with
              | inl e => process_complaint_except e w2
              | inr category =>
                  (inr (complaint_result (fallback_category category)
                                         generated_response), w2)
              end
          end
      end
  end.
Proof.
  intros Hm Hb Ht. simpl.
  unfold process_complaint, try_except, mbind, M_bind, lift, create, get_json.
  rewrite Hm, Hb. simpl. rewrite Ht. simpl.
  destruct (completions_create w _) as [e|response_result]; [done|].
  destruct (first_content_stripped response_result) as [e|generated]; [done|].
  destruct (completions_create _ _) as [e|category_result]; [done|].
  destruct (first_content_stripped category_result) as [e|category]; done.
Qed.

(** C7. A POST to processComplaint whose JSON object has no complaint, or
    an empty one (any value Python takes for false), is answered with the
    400 validation error, and the world is the one before the request: no
    call to the completion service was issued. *)
Theorem process_complaint_requires_complaint
    (req : HttpRequest) (w : world) (d : gmap str value) :
  method req = py "POST" →
  body req = JsonBody (VDict d) →
  d !! py "complaint" = None
  ∨ d !! py "complaint" = Some (VStr [])
  ∨ truthy (default VNone (d !! py "complaint")) = false →
  process_complaint config format_value completions_create req w
  = (inr (json_response (error_object "Complaint text is required.") 400), w)
  ∧ status_code (json_response (error_object "Complaint text is required.") 400) = 400.
Proof.
  intros Hm Hb Hc.
  assert (truthy (default VNone (d !! py "complaint")) = false) as Ht.
  { destruct Hc as [-> | [-> | H]]; [done | done | exact H]. }
  split; [|done].
  unfold process_complaint, try_except, mbind, M_bind, lift, get_json.
  rewrite Hm, Hb. simpl. by rewrite Ht.
Qed.

(** A POST with no body, or one that is no JSON, is answered 400 as well,
    again without any call. *)
Lemma process_complaint_invalid_json (req : HttpRequest) (w : world) :
  method req = py "POST" →
  body req = NoBody ∨ body req = Malformed →
  process_complaint config format_value completions_create req w
  = (inr (json_response (error_object "Invalid JSON payload.") 400), w).
Proof.
  intros Hm Hb.
  unfold process_complaint, try_except, mbind, M_bind, lift, get_json.
  rewrite Hm. by destruct Hb as [-> | ->].
Qed.

(** C2. Whatever text the classification call returns, the handler answers
    200 with a JSON object whose [category] field is the trimmed text when
    it is one of the four labels, and "Banking & Savings" otherwise; no
    error comes from a label that is not recognised. *)
Theorem classification_falls_back
    (req : HttpRequest) (w : world) (d : gmap str value)
    (draft text : str) (more1 more2 : list (option str)) :
  method req = py "POST" →
  body req = JsonBody (VDict d) →
  truthy (default VNone (d !! py "complaint")) = true →
  let complaint := default VNone (d !! py "complaint") in
  let findings := default (VStr (py "")) (d !! py "findings") in
  let w1 := log_call (response_request config format_value complaint findings) w in
  let w2 := log_call (category_request config format_value complaint findings) w1 in
  completions_create w (response_request config format_value complaint findings)
  = inr (Some draft :: more1) →
  completions_create w1 (category_request config format_value complaint findings)
  = inr (Some text :: more2) →
  ∃ (resp : HttpResponse) (category : str) (fields : gmap str value),
    process_complaint config format_value completions_create req w = (inr resp, w2)
    ∧ status_code resp = 200
    ∧ resp_body resp = Json (VDict fields)
    ∧ fields !! py "category" = Some (VStr category)
    ∧ fields !! py "response" = Some (VStr (strip draft))
    ∧ (strip text ∈ valid_categories → category = strip text)
    ∧ (strip text ∉ valid_categories → category = py "Banking & Savings").
Proof.
  intros Hm Hb Ht complaint findings w1 w2 H1 H2.
  destruct (complaint_result_carries (fallback_category (strip text)) (strip draft))
    as (Hstatus & fields & Hbody & Hcategory & Hresponse).
  exists (complaint_result (fallback_category (strip text)) (strip draft)),
    (fallback_category (strip text)), fields.
  split; [|repeat split; auto using fallback_category_keeps,
                                    fallback_category_replaces].
  rewrite (process_complaint_calls req w d Hm Hb Ht). simpl.
  fold complaint findings w1. rewrite H1. simpl. by rewrite H2.
Qed.

(** C3, as the code has it. For a complaint that is not empty, sent with
    no findings, and any two texts returned by the two calls, the handler
    answers 200 with a JSON object whose [response] field is the trimmed
    draft and whose [category] field is one of the four labels. The response
    is not empty exactly when the draft has a
    character that is not whitespace. *)
Theorem complaint_result_fields
    (req : HttpRequest) (w : world) (d : gmap str value)
    (complaint draft text : str) (more1 more2 : list (option str)) :
  method req = py "POST" →
  body req = JsonBody (VDict d) →
  d !! py "complaint" = Some (VStr complaint) →
  complaint ≠ [] →
  d !! py "findings" = None →
  let no_findings := VStr (py "") in
  let request1 := response_request config format_value (VStr complaint) no_findings in
  let request2 := category_request config format_value (VStr complaint) no_findings in
  let w1 := log_call request1 w in
  let w2 := log_call request2 w1 in
  completions_create w request1 = inr (Some draft :: more1) →
  completions_create w1 request2 = inr (Some text :: more2) →
  ∃ (resp : HttpResponse) (category : str) (fields : gmap str value),
    process_complaint config format_value completions_create req w = (inr resp, w2)
    ∧ status_code resp = 200
    ∧ resp_body resp = Json (VDict fields)
    ∧ fields !! py "response" = Some (VStr (strip draft))
    ∧ fields !! py "category" = Some (VStr category)
    ∧ category ∈ valid_categories
    ∧ (strip draft ≠ [] ↔ ∃ c, c ∈ draft ∧ isspace c = false).
Proof.
  intros Hm Hb Hc Hne Hf no_findings request1 request2 w1 w2 H1 H2.
  assert (truthy (default VNone (d !! py "complaint")) = true) as Ht.
  { rewrite Hc. simpl. by destruct complaint. }
  destruct (complaint_result_carries (fallback_category (strip text)) (strip draft))
    as (Hstatus & fields & Hbody & Hcategory & Hresponse).
  exists (complaint_result (fallback_category (strip text)) (strip draft)),
    (fallback_category (strip text)), fields.
  split; [|repeat split; auto using fallback_category_valid;
           by apply strip_nonempty].
  rewrite (process_complaint_calls req w d Hm Hb Ht). simpl.
  rewrite Hc, Hf. simpl. fold no_findings request1 request2 w1.
  rewrite H1. simpl. by rewrite H2.
Qed.

End ProcessComplaint.

(** Witness of [process_complaint_requires_complaint]: [{"complaint": ""}]. *)
Lemma process_complaint_requires_complaint_witness :
  let req :=
    Samples.request "POST" (JsonBody (VDict {[ py "complaint" := VStr [] ]})) in
  process_complaint Samples.config Samples.format_value
    (Samples.completions (py "We are sorry.") (py "Staff")) req Samples.world0
  = (inr (json_response (error_object "Complaint text is required.") 400),
     Samples.world0)
  ∧ status_code (json_response (error_object "Complaint text is required.") 400) = 400.
Proof.
  apply (process_complaint_requires_complaint Samples.config Samples.format_value
           (Samples.completions (py "We are sorry.") (py "Staff"))
           (Samples.request "POST" (JsonBody (VDict {[ py "complaint" := VStr [] ]})))
           Samples.world0 {[ py "complaint" := VStr [] ]}).
  - reflexivity.
  - reflexivity.
  - right. left. reflexivity.
Defined.

(** Witness of [classification_falls_back]: the label "Billing" is not one
    of the four and is replaced. *)
Lemma classification_falls_back_witness :
  let req := Samples.request "POST" (JsonBody (VDict Samples.complaint_only)) in
  let oracle := Samples.completions (py " We are sorry. ") (py "Billing") in
  let complaint := VStr (py "My card was charged twice.") in
  let w1 :=
    log_call (response_request Samples.config Samples.format_value
                complaint (VStr (py ""))) Samples.world0 in
  let w2 :=
    log_call (category_request Samples.config Samples.format_value
                complaint (VStr (py ""))) w1 in
  ∃ (resp : HttpResponse) (category : str) (fields : gmap str value),
    process_complaint Samples.config Samples.format_value oracle req Samples.world0
    = (inr resp, w2)
    ∧ status_code resp = 200
    ∧ resp_body resp = Json (VDict fields)
    ∧ fields !! py "category" = Some (VStr category)
    ∧ fields !! py "response" = Some (VStr (strip (py " We are sorry. ")))
    ∧ (strip (py "Billing") ∈ valid_categories → category = strip (py "Billing"))
    ∧ (strip (py "Billing") ∉ valid_categories → category = py "Banking & Savings").
Proof.
  apply (classification_falls_back Samples.config Samples.format_value
           (Samples.completions (py " We are sorry. ") (py "Billing"))
           (Samples.request "POST" (JsonBody (VDict Samples.complaint_only)))
           Samples.world0 Samples.complaint_only
           (py " We are sorry. ") (py "Billing") [] []);
    reflexivity.
Defined.

(** Witness of [complaint_result_fields]. *)
Lemma complaint_result_fields_witness :
  let req := Samples.request "POST" (JsonBody (VDict Samples.complaint_only)) in
  let oracle := Samples.completions (py "We are sorry.") (py "Staff") in
  let complaint := VStr (py "My card was charged twice.") in
  let w1 :=
    log_call (response_request Samples.config Samples.format_value
                complaint (VStr (py ""))) Samples.world0 in
  let w2 :=
    log_call (category_request Samples.config Samples.format_value
                complaint (VStr (py ""))) w1 in
  ∃ (resp : HttpResponse) (category : str) (fields : gmap str value),
    process_complaint Samples.config Samples.format_value oracle req Samples.world0
    = (inr resp, w2)
    ∧ status_code resp = 200
    ∧ resp_body resp = Json (VDict fields)
    ∧ fields !! py "response" = Some (VStr (strip (py "We are sorry.")))
    ∧ fields !! py "category" = Some (VStr category)
    ∧ category ∈ valid_categories
    ∧ (strip (py "We are sorry.") ≠ []
       ↔ ∃ c, c ∈ py "We are sorry." ∧ isspace c = false).
Proof.
  apply (complaint_result_fields Samples.config Samples.format_value
           (Samples.completions (py "We are sorry.") (py "Staff"))
           (Samples.request "POST" (JsonBody (VDict Samples.complaint_only)))
           Samples.world0 Samples.complaint_only
           (py "My card was charged twice.") (py "We are sorry.") (py "Staff") [] []);
    try reflexivity.
  discriminate.
Defined.

(** C3 as stated fails: the complaint is not empty, there are no findings,
    the drafting call returns the empty text, and the handler answers 200
    with a JSON object whose [response] field is the empty string. *)
Lemma empty_draft_gives_empty_response :
  let req := Samples.request "POST" (JsonBody (VDict Samples.complaint_only)) in
  let oracle := Samples.completions (py "") (py "Staff") in
  Samples.complaint_only !! py "complaint"
  = Some (VStr (py "My card was charged twice."))
  ∧ Samples.complaint_only !! py "findings" = None
  ∧ ∃ w',
      process_complaint Samples.config Samples.format_value oracle req Samples.world0
      = (inr (complaint_result (py "Staff") []), w')
      ∧ status_code (complaint_result (py "Staff") []) = 200
      ∧ ∃ fields : gmap str value,
          resp_body (complaint_result (py "Staff") []) = Json (VDict fields)
          ∧ fields !! py "response" = Some (VStr []).
Proof.
  split; [reflexivity|]. split; [reflexivity|].
  eexists. split; [reflexivity|]. split; [reflexivity|].
  eexists. split; reflexivity.
Qed.

(** C7 as stated fails: a POST whose body is the JSON array [[]], or the
    JSON [null], has no complaint field, and the handler answers it with
    the generic 500 error, not with a 400. No completion call is issued. *)
Lemma json_array_without_complaint_is_500 :
  let oracle := Samples.completions (py "We are sorry.") (py "Staff") in
  let error :=
    json_response
      (error_object "An error occurred while processing your request.") 500 in
  process_complaint Samples.config Samples.format_value oracle
    (Samples.request "POST" (JsonBody (VList []))) Samples.world0
  = (inr error, Samples.world0)
  ∧ process_complaint Samples.config Samples.format_value oracle
      (Samples.request "POST" (JsonBody VNone)) Samples.world0
    = (inr error, Samples.world0)
  ∧ status_code error = 500
  ∧ status_code error ≠ 400.
Proof. repeat split; done. Qed.

(** ** saveResponse *)

Lemma is_correct_category_absent (o e : option str) :
  is_correct_category None e = false ∧ is_correct_category o None = false.
Proof. split; [done | by destruct o]. Qed.

Lemma is_correct_category_present (o e : str) :
  is_correct_category (Some o) (Some e) = bool_decide (o = e).
Proof. reflexivity. Qed.

Lemma required_fields_all (fd : form_data) :
  all [truthy_str (form fd !! py "originalResponse");
       truthy_str (form fd !! py "editedResponse");
       truthy_str (form fd !! py "originalCategory");
       truthy_str (form fd !! py "editedCategory")] = true
  ↔ ∀ k, k ∈ required_fields → truthy_str (form fd !! k) = true.
Proof.
  rewrite all_true_iff. unfold required_fields. split.
  - intros H k Hk.
    repeat (apply elem_of_cons in Hk as [->|Hk];
            [apply H;
             repeat first [by apply list_elem_of_here | apply list_elem_of_further]|]).
    by apply elem_of_nil in Hk.
  - intros H b Hb.
    repeat (apply elem_of_cons in Hb as [->|Hb];
            [apply H;
             repeat first [by apply list_elem_of_here | apply list_elem_of_further]|]).
    by apply elem_of_nil in Hb.
Qed.

Section SaveResponse.

Variable config : settings.
Variable uuid4 : world -> str.
Variable datetime_now : world -> datetime.
Variable upload_fault : world -> option str -> str -> option exn.
Variable blob_url : option str -> str -> str.
Variable pyodbc_fault : world -> db_step -> option exn.

(** C8. A POST to saveResponse in which one of the four required fields is
    missing or empty is answered with the 400 validation error, and the
    world is the one before the request: nothing was uploaded and no row
    was written. *)
Theorem save_response_requires_fields
    (req : HttpRequest) (w : world) (fd : form_data) :
  method req = py "POST" →
  parsed_form req = inr fd →
  (∃ k, k ∈ required_fields ∧ truthy_str (form fd !! k) = false) →
  save_response config uuid4 datetime_now upload_fault blob_url pyodbc_fault req w
  = (inr (json_response
            (error_object "All response and category fields are required.") 400),
     w)
  ∧ status_code
      (json_response
         (error_object "All response and category fields are required.") 400)
    = 400.
Proof.
  intros Hm Hf (k & Hk & Hfalse). split; [|done].
  unfold save_response, try_except, mbind, M_bind, lift.
  rewrite Hm, Hf, bool_decide_eq_true_2 by reflexivity.
  cbn [negb]. cbv beta iota zeta.
  destruct (all _) eqn:Hall; [|done].
  pose proof (proj1 (required_fields_all fd) Hall) as Hall'.
  rewrite (Hall' k Hk) in Hfalse. discriminate.
Qed.

(** C6. A POST to saveResponse with the four required fields and no
    attachment builds one row whose [DocumentUrl] is the empty string and
    whose [IsCorrectCategory] is the comparison of the two category fields
    and of nothing else; the value is false as soon as a category is
    absent. The table afterwards is the table before, with that row added
    when the database session gets through the commit; the blob store is
    untouched. *)
Theorem save_response_without_attachment
    (req : HttpRequest) (w : world) (fd : form_data) :
  method req = py "POST" →
  parsed_form req = inr fd →
  (∀ k, k ∈ required_fields → truthy_str (form fd !! k) = true) →
  files fd !! py "document" = None →
  ∃ resp w' r,
    save_response config uuid4 datetime_now upload_fault blob_url pyodbc_fault req w
    = (inr resp, w')
    ∧ DocumentUrl r = py ""
    ∧ IsCorrectCategory r
      = is_correct_category (form fd !! py "originalCategory")
                            (form fd !! py "editedCategory")
    ∧ (IsCorrectCategory r = true
       ↔ form fd !! py "originalCategory" = form fd !! py "editedCategory")
    ∧ (∀ o e : option str, is_correct_category None e = false
                           ∧ is_correct_category o None = false)
    ∧ blob_store w' = blob_store w
    ∧ (ComplaintResponses w' = ComplaintResponses w
       ∨ ComplaintResponses w' = ComplaintResponses w ++ [r])
    ∧ ((∀ step, step ∈ [Connect; Cursor; Execute; Commit] →
                pyodbc_fault w step = None) →
       ComplaintResponses w' = ComplaintResponses w ++ [r]).
Proof.
  intros Hm Hf Hall Hfile.
  pose proof (Hall (py "originalCategory")) as Ho.
  pose proof (Hall (py "editedCategory")) as He.
  apply required_fields_all in Hall.
  set (r := {| ResponseId := uuid4 w;
               Complaint := default (py "Unknown") (form fd !! py "complaint");
               OriginalResponse := form fd !! py "originalResponse";
               EditedResponse := form fd !! py "editedResponse";
               OriginalCategory := form fd !! py "originalCategory";
               EditedCategory := form fd !! py "editedCategory";
               DocumentUrl := py "";
               SavedAt := datetime_now w;
               IsCorrectCategory :=
                 is_correct_category (form fd !! py "originalCategory")
                                     (form fd !! py "editedCategory") |}).
  assert (∃ resp w',
             save_response config uuid4 datetime_now upload_fault blob_url
                           pyodbc_fault req w = (inr resp, w')
             ∧ blob_store w' = blob_store w
             ∧ (ComplaintResponses w' = ComplaintResponses w
                ∨ ComplaintResponses w' = ComplaintResponses w ++ [r])
             ∧ ((∀ step, step ∈ [Connect; Cursor; Execute; Commit] →
                         pyodbc_fault w step = None) →
                ComplaintResponses w' = ComplaintResponses w ++ [r]))
    as (resp & w' & Hrun & Hblob & Htable & Hcommit).
  { assert (∀ e w0, ∃ resp, save_response_except e w0 = (inr resp, w0)) as Hex.
    { intros e w0. destruct e; simpl; eauto. }
    unfold save_response, try_except, mbind, M_bind, lift, read_world, mret, M_ret,
      pyodbc, commit_insert.
    rewrite Hm, Hf, bool_decide_eq_true_2 by reflexivity.
    cbn [negb]. cbv beta iota zeta. rewrite Hall, Hfile. cbn [negb]. cbv beta iota zeta.
    (* a fault before the commit: the except clause answers, nothing is written *)
    assert (∀ step e, step ∈ [Connect; Cursor; Execute; Commit] →
              pyodbc_fault w step = Some e →
              ∃ resp w',
                save_response_except e w = (inr resp, w')
                ∧ blob_store w' = blob_store w
                ∧ (ComplaintResponses w' = ComplaintResponses w
                   ∨ ComplaintResponses w' = ComplaintResponses w ++ [r])
                ∧ ((∀ step, step ∈ [Connect; Cursor; Execute; Commit] →
                            pyodbc_fault w step = None) →
                   ComplaintResponses w' = ComplaintResponses w ++ [r]))
      as Hfault.
    { intros step e Hstep Hsome. destruct (Hex e w) as [resp ->].
      exists resp, w. repeat split; auto.
      intros Hnone. rewrite (Hnone step Hstep) in Hsome. discriminate. }
    (* a fault after the commit: the except clause answers, the row stays *)
    assert (∀ e, ∃ resp w',
                save_response_except e (insert_row r w) = (inr resp, w')
                ∧ blob_store w' = blob_store w
                ∧ (ComplaintResponses w' = ComplaintResponses w
                   ∨ ComplaintResponses w' = ComplaintResponses w ++ [r])
                ∧ ((∀ step, step ∈ [Connect; Cursor; Execute; Commit] →
                            pyodbc_fault w step = None) →
                   ComplaintResponses w' = ComplaintResponses w ++ [r]))
      as Hlate.
    { intros e. destruct (Hex e (insert_row r w)) as [resp ->].
      exists resp, (insert_row r w). repeat split; auto. }
    destruct (pyodbc_fault w Connect) as [e|] eqn:E1; cbv beta iota zeta;
      [apply (Hfault Connect e); [repeat constructor | exact E1]|].
    destruct (pyodbc_fault w Cursor) as [e|] eqn:E2; cbv beta iota zeta;
      [apply (Hfault Cursor e); [repeat constructor | exact E2]|].
    destruct (pyodbc_fault w Execute) as [e|] eqn:E3; cbv beta iota zeta;
      [apply (Hfault Execute e); [repeat constructor | exact E3]|].
    destruct (pyodbc_fault w Commit) as [e|] eqn:E4; cbv beta iota zeta;
      [apply (Hfault Commit e); [repeat constructor | exact E4]|].
    fold r.
    destruct (pyodbc_fault (insert_row r w) CursorClose) as [e|];
      cbv beta iota zeta; [apply Hlate|].
    destruct (pyodbc_fault (insert_row r w) ConnClose) as [e|];
      cbv beta iota zeta; [apply Hlate|].
    eexists _, (insert_row r w). repeat split; auto. }
  exists resp, w', r. split; [exact Hrun|]. split; [reflexivity|].
  split; [reflexivity|]. split.
  { simpl.
    destruct (form fd !! py "originalCategory") as [o|] eqn:Eo;
      [|by (discriminate Ho; unfold required_fields;
            do 2 apply list_elem_of_further; apply list_elem_of_here)].
    destruct (form fd !! py "editedCategory") as [e|] eqn:Ee;
      [|by (discriminate He; unfold required_fields;
            do 3 apply list_elem_of_further; apply list_elem_of_here)].
    simpl. rewrite bool_decide_eq_true. split; congruence. }
  split; [intros o e; apply is_correct_category_absent|].
  split; [exact Hblob|]. split; [exact Htable | exact Hcommit].
Qed.

End SaveResponse.

(** Witness of [save_response_requires_fields]: the edited category is
    missing from the form. *)
Lemma save_response_requires_fields_witness :
  save_response Samples.config Samples.uuid4 Samples.datetime_now
    Samples.upload_fault Samples.blob_url Samples.pyodbc_fault
    (Samples.post_form Samples.form_without_edited_category) Samples.world0
  = (inr (json_response
            (error_object "All response and category fields are required.") 400),
     Samples.world0)
  ∧ status_code
      (json_response
         (error_object "All response and category fields are required.") 400)
    = 400.
Proof.
  apply (save_response_requires_fields Samples.config Samples.uuid4
           Samples.datetime_now Samples.upload_fault Samples.blob_url
           Samples.pyodbc_fault
           (Samples.post_form Samples.form_without_edited_category)
           Samples.world0 Samples.form_without_edited_category).
  - reflexivity.
  - reflexivity.
  - exists (py "editedCategory"). split; [|reflexivity].
    unfold required_fields. do 3 apply list_elem_of_further. apply list_elem_of_here.
Defined.

(** Witness of [save_response_without_attachment]: the full form, no file,
    a database that accepts the row. *)
Lemma save_response_without_attachment_witness :
  let fd := Samples.full_form in
  let w := Samples.world0 in
  ∃ resp w' r,
    save_response Samples.config Samples.uuid4 Samples.datetime_now
      Samples.upload_fault Samples.blob_url Samples.pyodbc_fault
      (Samples.post_form fd) w
    = (inr resp, w')
    ∧ DocumentUrl r = py ""
    ∧ IsCorrectCategory r
      = is_correct_category (form fd !! py "originalCategory")
                            (form fd !! py "editedCategory")
    ∧ (IsCorrectCategory r = true
       ↔ form fd !! py "originalCategory" = form fd !! py "editedCategory")
    ∧ (∀ o e : option str, is_correct_category None e = false
                           ∧ is_correct_category o None = false)
    ∧ blob_store w' = blob_store w
    ∧ (ComplaintResponses w' = ComplaintResponses w
       ∨ ComplaintResponses w' = ComplaintResponses w ++ [r])
    ∧ ((∀ step, step ∈ [Connect; Cursor; Execute; Commit] →
                Samples.pyodbc_fault w step = None) →
       ComplaintResponses w' = ComplaintResponses w ++ [r]).
Proof.
  apply (save_response_without_attachment Samples.config Samples.uuid4
           Samples.datetime_now Samples.upload_fault Samples.blob_url
           Samples.pyodbc_fault (Samples.post_form Samples.full_form)
           Samples.world0 Samples.full_form).
  - reflexivity.
  - reflexivity.
  - intros k Hk. unfold required_fields in Hk.
    repeat (apply elem_of_cons in Hk as [->|Hk]; [reflexivity|]).
    by apply elem_of_nil in Hk.
  - reflexivity.
Defined.

(** The row that request leaves in the table: an empty [DocumentUrl], and
    [IsCorrectCategory] true for the two equal categories. *)
Example save_response_full_form_row :
  ∃ resp,
    save_response Samples.config Samples.uuid4 Samples.datetime_now
      Samples.upload_fault Samples.blob_url Samples.pyodbc_fault
      (Samples.post_form Samples.full_form) Samples.world0
    = (inr resp,
       insert_row
         {| ResponseId := Samples.uuid4 Samples.world0;
            Complaint := py "My card was charged twice.";
            OriginalResponse := Some (py "We are sorry.");
            EditedResponse := Some (py "We are very sorry.");
            OriginalCategory := Some (py "Staff");
            EditedCategory := Some (py "Staff");
            DocumentUrl := py "";
            SavedAt := Samples.datetime_now Samples.world0;
            IsCorrectCategory := true |}
         Samples.world0)
    ∧ status_code resp = 200.
Proof. eexists. split; reflexivity. Qed.

(** ** GetRoles *)

Lemma role_values_dicts (claims : list (gmap str value)) :
  role_values (VDict <$> claims)
  = inr ((fun claim => default VNone (claim !! py "val"))
           <$> List.filter kept_by_code claims).
Proof.
  induction claims as [|claim claims IH]; [done|].
  rewrite fmap_cons. cbn [role_values py_get]. rewrite IH. cbn [List.filter].
  change ((eq_str (default VNone (claim !! py "typ")) (py "roles")
           || eq_str (default VNone (claim !! py "typ")) role_claim_uri)
          && truthy (default VNone (claim !! py "val")))
    with (kept_by_code claim).
  destruct (kept_by_code claim); [rewrite fmap_cons|]; reflexivity.
Qed.

Lemma push_role_lookup (roles : list str) (role : value) :
  push_role roles role = roles ++ from_option (fun r => [r]) [] (role_lookup role).
Proof.
  unfold push_role, role_lookup.
  repeat (destruct (eq_str role _); [done|]).
  simpl. by rewrite app_nil_r.
Qed.

(** The loop appends, in order, the role of each value that has one. *)
Lemma fold_push_role (vals : list value) (roles : list str) :
  fold_left push_role vals roles = roles ++ omap role_lookup vals.
Proof.
  revert roles. induction vals as [|v vals IH]; intros roles; simpl.
  - by rewrite app_nil_r.
  - rewrite IH, push_role_lookup.
    destruct (role_lookup v) as [r|]; simpl.
    + by rewrite <- app_assoc.
    + by rewrite app_nil_r.
Qed.

Lemma falsy_has_no_role (v : value) : truthy v = false → role_lookup v = None.
Proof. destruct v as [| | | |[|c s]| |]; done. Qed.

Lemma truthy_is_nonempty (claim : gmap str value) :
  truthy (default VNone (claim !! py "val")) = true → nonempty_val claim = true.
Proof.
  unfold nonempty_val. destruct (claim !! py "val") as [[| | | |[|c s]| |]|]; done.
Qed.

Lemma is_role_typ_code (claim : gmap str value) :
  is_role_typ claim
  = eq_str (default VNone (claim !! py "typ")) (py "roles")
    || eq_str (default VNone (claim !! py "typ")) role_claim_uri.
Proof. unfold is_role_typ. by destruct (claim !! py "typ"). Qed.

(** What the code collects and maps is what the specification describes. *)
Lemma code_roles_spec (claims : list (gmap str value)) :
  omap role_lookup
       ((fun claim => default VNone (claim !! py "val"))
          <$> List.filter kept_by_code claims)
  = roles_spec claims.
Proof.
  unfold roles_spec.
  induction claims as [|claim claims IH]; [done|].
  cbn [List.filter]. unfold kept_by_code at 1. rewrite <- is_role_typ_code.
  destruct (is_role_typ claim); cbn [andb]; [|exact IH].
  destruct (truthy (default VNone (claim !! py "val"))) eqn:Ht.
  - rewrite (truthy_is_nonempty claim Ht). rewrite fmap_cons.
    cbn [omap list_omap]. by rewrite IH.
  - destruct (nonempty_val claim); [|exact IH].
    cbn [omap list_omap]. rewrite (falsy_has_no_role _ Ht). exact IH.
Qed.

Lemma read_body_post_json (req : HttpRequest) (w : world) (v : value) :
  method req = py "POST" → body req = JsonBody v → read_body req w = (inr v, w).
Proof.
  intros Hm Hb. unfold read_body, try_except, lift, get_json.
  by rewrite Hm, Hb.
Qed.

Lemma read_body_no_json (req : HttpRequest) (w : world) :
  body req = NoBody ∨ body req = Malformed → read_body req w = (inr (VDict ∅), w).
Proof.
  intros Hb. unfold read_body, try_except, lift, get_json.
  case_bool_decide; [|done]. by destruct Hb as [-> | ->].
Qed.

Lemma read_body_not_post (req : HttpRequest) (w : world) :
  method req ≠ py "POST" → read_body req w = (inr (VDict ∅), w).
Proof.
  intros Hm. unfold read_body, try_except. by rewrite bool_decide_eq_false_2.
Qed.

Lemma roles_of_body_no_claims (d : gmap str value) :
  d !! py "claims" = None → roles_of_body (VDict d) = inr [].
Proof.
  intros Hd. unfold roles_of_body, get_roles_claims, py_get. by rewrite Hd.
Qed.

(** What the answer of [get_roles] holds: status 200 and a JSON object
    whose [roles] field is the list of the roles. *)
Lemma roles_response_carries (roles : list str) :
  status_code (roles_response roles) = 200
  ∧ ∃ fields : gmap str value,
      resp_body (roles_response roles) = Json (VDict fields)
      ∧ fields !! py "roles" = Some (VList (VStr <$> roles)).
Proof.
  split; [reflexivity|]. eexists. split; [reflexivity|].
  apply lookup_singleton_eq.
Qed.

(** C5, as the code has it. For every list of claim objects sent as
    [claims] in the body of a POST, the roles the handler computes are the
    ones the specification describes: the claims whose [typ] is "roles" or
    the role-claim URI and whose [val] is not empty, in order and with
    repetitions, each value mapped through the fixed lookup and dropped when
    it has no entry there. The answer is a 200 whose JSON object has these
    roles, as strings, in its [roles] field. *)
Theorem get_roles_maps_claims
    (claims : list (gmap str value)) (d : gmap str value) :
  d !! py "claims" = Some (VList (VDict <$> claims)) →
  roles_of_body (VDict d) = inr (roles_spec claims)
  ∧ ∀ (req : HttpRequest) (w : world),
      method req = py "POST" →
      body req = JsonBody (VDict d) →
      ∃ (resp : HttpResponse) (fields : gmap str value),
        get_roles req w = (inr resp, w)
        ∧ status_code resp = 200
        ∧ resp_body resp = Json (VDict fields)
        ∧ fields !! py "roles" = Some (VList (VStr <$> roles_spec claims)).
Proof.
  intros Hd.
  assert (roles_of_body (VDict d) = inr (roles_spec claims)) as Hroles.
  { unfold roles_of_body, get_roles_claims, py_get. rewrite Hd.
    cbn [default from_option id py_iter].
    rewrite role_values_dicts, fold_push_role. cbn [app].
    by rewrite code_roles_spec. }
  split; [exact Hroles|].
  intros req w Hm Hb.
  destruct (roles_response_carries (roles_spec claims))
    as (Hstatus & fields & Hbody & Hfield).
  exists (roles_response (roles_spec claims)), fields.
  split; [|by repeat split].
  unfold get_roles, mbind, M_bind, lift.
  by rewrite (read_body_post_json req w _ Hm Hb), Hroles.
Qed.

(** C4, as the code has it. With no body, with a body that [json.loads]
    rejects as malformed, or with a JSON object that has no [claims] entry,
    the handler answers 200 with a JSON object whose [roles] field is the
    empty list, whatever the method. *)
Theorem get_roles_tolerates_missing_claims (req : HttpRequest) (w : world) :
  body req = NoBody
  ∨ body req = Malformed
  ∨ (∃ d : gmap str value,
       body req = JsonBody (VDict d) ∧ d !! py "claims" = None) →
  get_roles req w = (inr (roles_response []), w)
  ∧ status_code (roles_response []) = 200
  ∧ ∃ fields : gmap str value,
      resp_body (roles_response []) = Json (VDict fields)
      ∧ fields !! py "roles" = Some (VList []).
Proof.
  intros Hb. split; [|exact (roles_response_carries [])].
  unfold get_roles, mbind, M_bind, lift.
  destruct Hb as [Hb | [Hb | (d & Hb & Hd)]].
  - by rewrite (read_body_no_json req w (or_introl Hb)).
  - by rewrite (read_body_no_json req w (or_intror Hb)).
  - destruct (decide (method req = py "POST")) as [Hm | Hm].
    + rewrite (read_body_post_json req w _ Hm Hb).
      by rewrite (roles_of_body_no_claims d Hd).
    + by rewrite (read_body_not_post req w Hm).
Qed.

(** C10. A request to GetRoles whose method is not POST, a GET for one, is
    answered 200 with the empty list of roles whatever its body holds: the
    body is not read, so claims count on POST only. *)
Theorem get_roles_reads_body_on_post_only (req : HttpRequest) (w : world) :
  method req ≠ py "POST" →
  read_body req w = (inr (VDict ∅), w)
  ∧ get_roles req w = (inr (roles_response []), w).
Proof.
  intros Hm. split; [by apply read_body_not_post|].
  unfold get_roles, mbind, M_bind, lift.
  by rewrite (read_body_not_post req w Hm).
Qed.

(** Witness of [get_roles_maps_claims]: the five sample claims. *)
Lemma get_roles_maps_claims_witness :
  roles_of_body (VDict Samples.claims_body) = inr (roles_spec Samples.claims)
  ∧ ∀ (req : HttpRequest) (w : world),
      method req = py "POST" →
      body req = JsonBody (VDict Samples.claims_body) →
      ∃ (resp : HttpResponse) (fields : gmap str value),
        get_roles req w = (inr resp, w)
        ∧ status_code resp = 200
        ∧ resp_body resp = Json (VDict fields)
        ∧ fields !! py "roles" = Some (VList (VStr <$> roles_spec Samples.claims)).
Proof.
  apply (get_roles_maps_claims Samples.claims Samples.claims_body).
  reflexivity.
Defined.

(** C5 as stated fails on lists of claims the handler receives. Sent by
    GET, the five sample claims are not read: the answer has no role,
    whereas the filter and lookup give three. Sent by POST, a list with one
    element that is not an object, here the string "guest" after a guest
    claim, gets no answer: the handler raises [AttributeError]. *)
Lemma get_roles_ignores_or_rejects_claims :
  (roles_spec Samples.claims
   = [py "temp_guest"; py "complaintsysadmin"; py "temp_guest"]
   ∧ ∃ fields : gmap str value,
       get_roles (Samples.request "GET" (JsonBody (VDict Samples.claims_body)))
                 Samples.world0
       = (inr (roles_response []), Samples.world0)
       ∧ resp_body (roles_response []) = Json (VDict fields)
       ∧ fields !! py "roles" = Some (VList []))
  ∧ get_roles
      (Samples.request "POST"
         (JsonBody (VDict {[ py "claims" :=
                               VList [VDict (Samples.claim "roles" "guest");
                                      VStr (py "guest")] ]})))
      Samples.world0
    = (inl AttributeError, Samples.world0).
Proof.
  split; [split; [reflexivity|] | reflexivity].
  eexists. repeat split; reflexivity.
Qed.

(** On these claims: the unknown value and the claim of another type are
    dropped, the order is kept and the guest appears twice. *)
Example roles_of_sample_claims :
  roles_spec Samples.claims
  = [py "temp_guest"; py "complaintsysadmin"; py "temp_guest"]
  ∧ get_roles (Samples.request "POST" (JsonBody (VDict Samples.claims_body)))
              Samples.world0
    = (inr (roles_response
              [py "temp_guest"; py "complaintsysadmin"; py "temp_guest"]),
       Samples.world0).
Proof. split; reflexivity. Qed.

(** Witness of [get_roles_tolerates_missing_claims]: a POST whose JSON
    object has no claims. *)
Lemma get_roles_tolerates_missing_claims_witness :
  get_roles (Samples.request "POST" (JsonBody (VDict Samples.complaint_only)))
            Samples.world0
  = (inr (roles_response []), Samples.world0)
  ∧ status_code (roles_response []) = 200
  ∧ ∃ fields : gmap str value,
      resp_body (roles_response []) = Json (VDict fields)
      ∧ fields !! py "roles" = Some (VList []).
Proof.
  apply (get_roles_tolerates_missing_claims
           (Samples.request "POST" (JsonBody (VDict Samples.complaint_only)))
           Samples.world0).
  right. right. exists Samples.complaint_only. split; reflexivity.
Defined.

(** C4 as stated fails: a POST whose body is well-formed JSON of the wrong
    shape is not answered, the handler raises. Here the body is the JSON
    array [[]], then the JSON object [{"claims": 5}], which has no list of
    claims. A body nested deeper than the recursion limit is not answered
    either: [RecursionError] is no [ValueError] and leaves the handler. *)
Lemma get_roles_raises_on_json_array :
  get_roles (Samples.request "POST" (JsonBody (VList []))) Samples.world0
  = (inl AttributeError, Samples.world0)
  ∧ get_roles (Samples.request "POST"
                 (JsonBody (VDict {[ py "claims" := VInt 5 ]})))
              Samples.world0
    = (inl TypeError, Samples.world0)
  ∧ get_roles (Samples.request "POST" TooDeep) Samples.world0
    = (inl RecursionError, Samples.world0).
Proof. repeat split; reflexivity. Qed.

(** The same happens with claims that are [null], or a list of something
    else than objects. *)
Example get_roles_raises_on_odd_claims :
  get_roles (Samples.request "POST" (JsonBody (VDict {[ py "claims" := VNone ]})))
            Samples.world0
  = (inl TypeError, Samples.world0)
  ∧ get_roles (Samples.request "POST"
                 (JsonBody (VDict {[ py "claims" := VList [VStr (py "guest")] ]})))
              Samples.world0
    = (inl AttributeError, Samples.world0).
Proof. split; reflexivity. Qed.

(** Witness of [get_roles_reads_body_on_post_only]: a GET that carries the
    sample claims. *)
Lemma get_roles_reads_body_on_post_only_witness :
  let req := Samples.request "GET" (JsonBody (VDict Samples.claims_body)) in
  read_body req Samples.world0 = (inr (VDict ∅), Samples.world0)
  ∧ get_roles req Samples.world0 = (inr (roles_response []), Samples.world0).
Proof.
  apply (get_roles_reads_body_on_post_only
           (Samples.request "GET" (JsonBody (VDict Samples.claims_body)))
           Samples.world0).
  discriminate.
Defined.

(** ** The cross-origin header *)

Lemma answers_ret (P : HttpResponse → Prop) (resp : HttpResponse) :
  P resp → answers P (mret resp).
Proof. intros H w resp' w' [= <- _]. exact H. Qed.

Lemma answers_bind {A} (P : HttpResponse → Prop) (m : M A) (k : A → M HttpResponse) :
  (∀ a, answers P (k a)) → answers P (m ≫= k).
Proof.
  intros H w resp w'. unfold mbind, M_bind.
  destruct (m w) as [[e|a] w1]; [discriminate|]. apply H.
Qed.

Lemma answers_try (P : HttpResponse → Prop) (body : M HttpResponse)
    (handler : exn → M HttpResponse) :
  answers P body →
  (∀ e, answers P (handler e)) →
  answers P (try_except body handler).
Proof.
  intros Hbody Hhandler w resp w'. unfold try_except.
  destruct (body w) as [[e|r] w1] eqn:E.
  - apply Hhandler.
  - intros [= <- _]. exact (Hbody _ _ _ E).
Qed.

Lemma json_response_cors (v : value) (code : Z) :
  code ≠ 405 → cors_unless_405 (json_response v code).
Proof. intros H. split; [reflexivity | done]. Qed.

Lemma plain_405_no_header (text : str) :
  cors_unless_405 (plain_response text 405).
Proof. split; [done | reflexivity]. Qed.

Ltac answers_step :=
  first
    [ apply answers_try
    | apply answers_bind; intros
    | apply answers_ret; first [ apply plain_405_no_header
                               | apply json_response_cors; discriminate ]
    | match goal with
      | |- answers _ (if ?b then _ else _) => destruct b
      | |- answers _ (match ?x with _ => _ end) => destruct x
      | |- ∀ _, _ => intros
      end ].

Section Cors.

Variable config : settings.
Variable format_value : value -> str.
Variable completions_create : world -> chat_request -> exn + list (option str).
Variable uuid4 : world -> str.
Variable datetime_now : world -> datetime.
Variable isoformat : datetime -> str.
Variable upload_fault : world -> option str -> str -> option exn.
Variable blob_url : option str -> str -> str.
Variable pyodbc_fault : world -> db_step -> option exn.
Variable identity : nat -> Z.

Lemma process_complaint_cors (req : HttpRequest) :
  answers cors_unless_405
    (process_complaint config format_value completions_create req).
Proof. unfold process_complaint, process_complaint_except. repeat answers_step. Qed.

Lemma save_response_cors (req : HttpRequest) :
  answers cors_unless_405
    (save_response config uuid4 datetime_now upload_fault blob_url pyodbc_fault req).
Proof. unfold save_response, save_response_except. repeat answers_step. Qed.

Lemma get_roles_cors (req : HttpRequest) :
  answers cors_unless_405 (get_roles req).
Proof. unfold get_roles, roles_response. repeat answers_step. Qed.

Lemma get_saved_responses_cors (req : HttpRequest) :
  answers cors_unless_405
    (get_saved_responses isoformat pyodbc_fault identity req).
Proof.
  unfold get_saved_responses, get_saved_responses_except. repeat answers_step.
Qed.

(** C9, as the code has it. Every response a handler returns carries
    [Access-Control-Allow-Origin: *], the validation, service and storage
    errors included, except the 405 answer to a method the route does not
    take, which carries no header. *)
Theorem responses_carry_cors_unless_405
    (req : HttpRequest) (w w' : world) (resp : HttpResponse) :
  process_complaint config format_value completions_create req w = (inr resp, w')
  ∨ save_response config uuid4 datetime_now upload_fault blob_url pyodbc_fault req w
    = (inr resp, w')
  ∨ get_roles req w = (inr resp, w')
  ∨ get_saved_responses isoformat pyodbc_fault identity req w = (inr resp, w') →
  (status_code resp ≠ 405 → has_cors resp)
  ∧ (status_code resp = 405 → headers resp = ∅).
Proof.
  intros [H | [H | [H | H]]].
  - exact (process_complaint_cors req _ _ _ H).
  - exact (save_response_cors req _ _ _ H).
  - exact (get_roles_cors req _ _ _ H).
  - exact (get_saved_responses_cors req _ _ _ H).
Qed.

End Cors.

(** Witness of [responses_carry_cors_unless_405]: the 400 answer of
    processComplaint to an empty complaint. *)
Lemma responses_carry_cors_unless_405_witness :
  let resp := json_response (error_object "Complaint text is required.") 400 in
  (status_code resp ≠ 405 → has_cors resp)
  ∧ (status_code resp = 405 → headers resp = ∅).
Proof.
  apply (responses_carry_cors_unless_405 Samples.config Samples.format_value
           (Samples.completions (py "We are sorry.") (py "Staff"))
           Samples.uuid4 Samples.datetime_now Samples.isoformat
           Samples.upload_fault Samples.blob_url Samples.pyodbc_fault
           Samples.identity
           (Samples.request "POST" (JsonBody (VDict {[ py "complaint" := VStr [] ]})))
           Samples.world0 Samples.world0).
  left. reflexivity.
Defined.

(** C9 as stated fails: handed a GET, [process_complaint] returns its 405
    answer, and that response has no [Access-Control-Allow-Origin] header. *)
Lemma method_not_allowed_has_no_cors_header :
  process_complaint Samples.config Samples.format_value
    (Samples.completions (py "We are sorry.") (py "Staff"))
    (Samples.request "GET" NoBody) Samples.world0
  = (inr (plain_response (py "Method not allowed. Use POST.") 405), Samples.world0)
  ∧ headers (plain_response (py "Method not allowed. Use POST.") 405)
    !! py "Access-Control-Allow-Origin" = None.
Proof. split; reflexivity. Qed.

(** The 405 answers of the two other handlers that check the method are
    built the same way. *)
Example other_method_not_allowed_responses :
  save_response Samples.config Samples.uuid4 Samples.datetime_now
    Samples.upload_fault Samples.blob_url Samples.pyodbc_fault
    (Samples.request "GET" NoBody) Samples.world0
  = (inr (plain_response (py "Method not allowed. Use POST.") 405), Samples.world0)
  ∧ get_saved_responses Samples.isoformat Samples.pyodbc_fault Samples.identity
      (Samples.request "POST" NoBody) Samples.world0
    = (inr (plain_response (py "Method not allowed. Use GET.") 405), Samples.world0).
Proof. split; reflexivity. Qed.

(** Listing after one save: the row comes back with its nine columns and
    [SavedAt] as text. *)
Example get_saved_responses_after_save :
  ∃ w1 resp,
    save_response Samples.config Samples.uuid4 Samples.datetime_now
      Samples.upload_fault Samples.blob_url Samples.pyodbc_fault
      (Samples.post_form Samples.full_form) Samples.world0
    = (inr resp, w1)
    ∧ get_saved_responses Samples.isoformat Samples.pyodbc_fault Samples.identity
        (Samples.request "GET" NoBody) w1
      = (inr (json_response
                (VDict {[ py "responses" :=
                   VList [VDict (list_to_map
                     [(py "Id", VInt 1);
                      (py "ResponseId", VStr (Samples.uuid4 Samples.world0));
                      (py "Complaint", VStr (py "My card was charged twice."));
                      (py "OriginalResponse", VStr (py "We are sorry."));
                      (py "EditedResponse", VStr (py "We are very sorry."));
                      (py "OriginalCategory", VStr (py "Staff"));
                      (py "EditedCategory", VStr (py "Staff"));
                      (py "DocumentUrl", VStr (py ""));
                      (py "SavedAt", VStr (py "2025-03-14T09:26:53"))])] ]})
                200),
         w1).
Proof. do 2 eexists. split; vm_compute; reflexivity. Qed.

(** * Further properties of the handlers *)

(** ** Reasoning on outcomes *)

Lemma wp_ret {A} (a : A) (Q : exn + A → world → Prop) (w : world) :
  Q (inr a) w → wp (mret a) Q w.
Proof. done. Qed.

Lemma wp_raise {A} (e : exn) (Q : exn + A → world → Prop) (w : world) :
  Q (inl e) w → wp (raise e) Q w.
Proof. done. Qed.

Lemma wp_lift {A} (r : exn + A) (Q : exn + A → world → Prop) (w : world) :
  Q r w → wp (lift r) Q w.
Proof. done. Qed.

Lemma wp_read_world {A} (f : world → A) (Q : exn + A → world → Prop) (w : world) :
  Q (inr (f w)) w → wp (read_world f) Q w.
Proof. done. Qed.

Lemma wp_bind {A B} (m : M A) (k : A → M B) (Q : exn + B → world → Prop)
    (w : world) :
  wp m (fun r w' =>
          match r with
          | inr a => wp (k a) Q w'
          | inl e => Q (inl e) w'
          end) w →
  wp (m ≫= k) Q w.
Proof.
  unfold wp, mbind, M_bind. cbv beta. by destruct (m w) as [[e|a] w'].
Qed.

Lemma wp_try {A} (body : M A) (handler : exn → M A)
    (Q : exn + A → world → Prop) (w : world) :
  wp body (fun r w' =>
             match r with
             | inl e => wp (handler e) Q w'
             | inr a => Q (inr a) w'
             end) w →
  wp (try_except body handler) Q w.
Proof.
  unfold wp, try_except. cbv beta. by destruct (body w) as [[e|a] w'].
Qed.

Lemma wp_outcome {A} (m : M A) (Q : exn + A → world → Prop) (w : world) :
  wp m Q w → ∀ r w', m w = (r, w') → Q r w'.
Proof. unfold wp. intros H r w' E. by rewrite E in H. Qed.

Lemma wp_intro {A} (m : M A) (Q : exn + A → world → Prop) (w : world) :
  (∀ r w', m w = (r, w') → Q r w') → wp m Q w.
Proof. intros H. unfold wp. apply H. by destruct (m w). Qed.

(** A computation whose outcome is always a value returns one. *)
Lemma wp_returns {A} (m : M A) (P : A → world → Prop) (w : world) :
  wp m (fun r w' => ∃ a, r = inr a ∧ P a w') w →
  ∃ a w', m w = (inr a, w') ∧ P a w'.
Proof.
  unfold wp. destruct (m w) as [r w']. simpl. intros (a & -> & H). eauto.
Qed.

Lemma only_logs_refl (w : world) : only_logs [] w w.
Proof. unfold only_logs. by rewrite app_nil_r. Qed.

Lemma only_logs_call (calls : list chat_request) (r : chat_request) (w w' : world) :
  only_logs calls w w' → only_logs (calls ++ [r]) w (log_call r w').
Proof.
  intros (Hlog & Hblob & Htable). unfold only_logs. simpl.
  by rewrite Hlog, app_assoc.
Qed.

Ltac in_list :=
  repeat first [apply list_elem_of_here | apply list_elem_of_further].

(** One step through a handler: a control construct is opened, a step that
    can raise is split into its outcomes. *)
Ltac wp_control :=
  lazymatch goal with
  | |- wp (if ?b then _ else _) _ _ => destruct b eqn:?
  | |- wp (match ?x with _ => _ end) _ _ => destruct x eqn:?
  | |- wp (try_except _ _) _ _ => apply wp_try
  | |- wp (mbind _ _) _ _ => apply wp_bind
  | |- wp (mret _) _ _ => apply wp_ret
  | |- wp (raise _) _ _ => apply wp_raise
  | |- wp (lift ?r) _ _ => apply wp_lift; destruct r eqn:?
  | |- wp (read_world _) _ _ => apply wp_read_world
  end; cbv beta iota zeta.

(** ** processComplaint, on every request *)

Section ProcessComplaintOutcomes.

Variable config : settings.
Variable format_value : value -> str.
Variable completions_create : world -> chat_request -> exn + list (option str).

Lemma wp_create (r : chat_request)
    (Q : exn + list (option str) → world → Prop) (w : world) :
  Q (completions_create w r) (log_call r w) →
  wp (create completions_create r) Q w.
Proof. done. Qed.

Ltac wp_complaint :=
  first
    [ wp_control
    | lazymatch goal with
      | |- wp (create _ ?r) _ ?w =>
          apply wp_create; destruct (completions_create w r) eqn:?
      | |- wp (process_complaint_except ?e) _ _ =>
          unfold process_complaint_except; destruct e
      end; cbv beta iota zeta ].

(** X1. Whatever the request and whatever the completion service does,
    [process_complaint] returns a response and raises nothing; the status
    is 200, 400, 405 or 500; the only thing it changes is the log of
    completion calls, by at most two calls. *)
Theorem process_complaint_always_answers (req : HttpRequest) (w : world) :
  ∃ resp w' calls,
    process_complaint config format_value completions_create req w = (inr resp, w')
    ∧ status_code resp ∈ handler_statuses
    ∧ only_logs calls w w'
    ∧ (length calls ≤ 2)%nat.
Proof.
  destruct (wp_returns
              (process_complaint config format_value completions_create req)
              (fun resp w' =>
                 ∃ calls,
                   status_code resp ∈ handler_statuses
                   ∧ only_logs calls w w'
                   ∧ (length calls ≤ 2)%nat) w)
    as (resp & w' & Hrun & calls & Hstatus & Hlogs & Hlen);
    [|by exists resp, w', calls].
  unfold process_complaint.
  repeat wp_complaint;
    (eexists; split; [reflexivity|]; eexists; split; [in_list|]; split;
     [eauto using only_logs_refl, only_logs_call | simpl; lia]).
Qed.

Lemma process_complaint_falsy
    (req : HttpRequest) (w : world) (d : gmap str value) :
  method req = py "POST" →
  body req = JsonBody (VDict d) →
  truthy (default VNone (d !! py "complaint")) = false →
  process_complaint config format_value completions_create req w
  = (inr (json_response (error_object "Complaint text is required.") 400), w).
Proof.
  intros Hm Hb Ht.
  unfold process_complaint, try_except, mbind, M_bind, lift, get_json.
  rewrite Hm, Hb. simpl. by rewrite Ht.
Qed.

(** X2. A 200 from [process_complaint] means that the body was a JSON object
    with a complaint that is not empty, that both completion calls were
    issued, the drafting one first, and that the answer is a JSON object with
    a [response] field and a [category] field, the category being one of the
    four labels. *)
Theorem process_complaint_success
    (req : HttpRequest) (w w' : world) (resp : HttpResponse) :
  process_complaint config format_value completions_create req w = (inr resp, w') →
  status_code resp = 200 →
  ∃ (d : gmap str value) (category response : str) (fields : gmap str value),
    body req = JsonBody (VDict d)
    ∧ truthy (default VNone (d !! py "complaint")) = true
    ∧ resp_body resp = Json (VDict fields)
    ∧ fields !! py "category" = Some (VStr category)
    ∧ fields !! py "response" = Some (VStr response)
    ∧ category ∈ valid_categories
    ∧ w' = log_call
             (category_request config format_value
                (default VNone (d !! py "complaint"))
                (default (VStr (py "")) (d !! py "findings")))
             (log_call
                (response_request config format_value
                   (default VNone (d !! py "complaint"))
                   (default (VStr (py "")) (d !! py "findings")))
                w).
Proof.
  intros Hrun Hstatus.
  destruct (decide (method req = py "POST")) as [Hm | Hm]; cycle 1.
  { unfold process_complaint in Hrun.
    rewrite bool_decide_eq_false_2 in Hrun by done.
    injection Hrun as <- _. discriminate Hstatus. }
  destruct (body req) as [| | |v] eqn:Hb.
  { rewrite (process_complaint_invalid_json config format_value completions_create
               req w Hm (or_introl Hb)) in Hrun.
    injection Hrun as <- _. discriminate Hstatus. }
  { rewrite (process_complaint_invalid_json config format_value completions_create
               req w Hm (or_intror Hb)) in Hrun.
    injection Hrun as <- _. discriminate Hstatus. }
  { unfold process_complaint, try_except, mbind, M_bind, lift, get_json in Hrun.
    rewrite Hm, Hb in Hrun. simpl in Hrun.
    injection Hrun as <- _. discriminate Hstatus. }
  assert (∀ e w0, ∃ r, process_complaint_except e w0 = (inr r, w0)
                       ∧ status_code r ≠ 200) as Hex.
  { intros e w0. destruct e; simpl; eauto. }
  assert (∀ e w0, process_complaint_except e w0 ≠ (inr resp, w')) as Hnot.
  { intros e w0 H. destruct (Hex e w0) as (r & Hr & Hs). rewrite Hr in H.
    injection H as -> _. done. }
  destruct v as [| | | | | |d];
    try (unfold process_complaint, try_except, mbind, M_bind, lift, get_json in Hrun;
         rewrite Hm, Hb in Hrun; simpl in Hrun;
         injection Hrun as <- _; discriminate Hstatus).
  destruct (truthy (default VNone (d !! py "complaint"))) eqn:Ht; cycle 1.
  { rewrite (process_complaint_falsy req w d Hm Hb Ht) in Hrun.
    injection Hrun as <- _. discriminate Hstatus. }
  rewrite (process_complaint_calls config format_value completions_create
             req w d Hm Hb Ht) in Hrun. simpl in Hrun.
  destruct (completions_create w _) as [e|response_result];
    [by destruct (Hnot _ _ Hrun)|].
  destruct (first_content_stripped response_result) as [e|generated];
    [by destruct (Hnot _ _ Hrun)|].
  destruct (completions_create _ _) as [e|category_result];
    [by destruct (Hnot _ _ Hrun)|].
  destruct (first_content_stripped category_result) as [e|category];
    [by destruct (Hnot _ _ Hrun)|].
  injection Hrun as <- <-.
  destruct (complaint_result_carries (fallback_category category) generated)
    as (_ & fields & Hbody & Hcategory & Hresponse).
  exists d, (fallback_category category), generated, fields.
  repeat split; auto using fallback_category_valid.
Qed.

(** X3. When the drafting call raises, the classification call is never
    issued: the log has the drafting request and nothing more, and the
    answer is the one the [except] clauses give, a 500 with the service
    message for an [OpenAIError]. *)
Theorem draft_failure_stops_the_handler
    (req : HttpRequest) (w : world) (d : gmap str value) (e : exn) :
  method req = py "POST" →
  body req = JsonBody (VDict d) →
  truthy (default VNone (d !! py "complaint")) = true →
  let complaint := default VNone (d !! py "complaint") in
  let findings := default (VStr (py "")) (d !! py "findings") in
  let request1 := response_request config format_value complaint findings in
  completions_create w request1 = inl e →
  ∃ resp,
    process_complaint config format_value completions_create req w
    = (inr resp, log_call request1 w)
    ∧ status_code resp ∈ [400; 500]
    ∧ (e = OpenAIError →
       resp = json_response
                (error_object "Failed to generate response due to OpenAI service issue.")
                500).
Proof.
  intros Hm Hb Ht complaint findings request1 H1.
  rewrite (process_complaint_calls config format_value completions_create
             req w d Hm Hb Ht). simpl.
  fold complaint findings request1. rewrite H1.
  destruct e; simpl; eexists; (split; [reflexivity|]); (split; [in_list | done]).
Qed.

(** X4. When the classification call raises after a draft was generated, the
    draft is dropped: both requests are in the log and the answer is an
    error, a 500 with the service message for an [OpenAIError]. *)
Theorem classification_failure_discards_draft
    (req : HttpRequest) (w : world) (d : gmap str value)
    (draft : str) (more : list (option str)) (e : exn) :
  method req = py "POST" →
  body req = JsonBody (VDict d) →
  truthy (default VNone (d !! py "complaint")) = true →
  let complaint := default VNone (d !! py "complaint") in
  let findings := default (VStr (py "")) (d !! py "findings") in
  let request1 := response_request config format_value complaint findings in
  let request2 := category_request config format_value complaint findings in
  completions_create w request1 = inr (Some draft :: more) →
  completions_create (log_call request1 w) request2 = inl e →
  ∃ resp,
    process_complaint config format_value completions_create req w
    = (inr resp, log_call request2 (log_call request1 w))
    ∧ status_code resp ∈ [400; 500]
    ∧ (∃ msg, resp_body resp = Json (VDict {[ py "error" := VStr msg ]}))
    ∧ (e = OpenAIError →
       resp = json_response
                (error_object "Failed to generate response due to OpenAI service issue.")
                500).
Proof.
  intros Hm Hb Ht complaint findings request1 request2 H1 H2.
  rewrite (process_complaint_calls config format_value completions_create
             req w d Hm Hb Ht). simpl.
  fold complaint findings request1 request2. rewrite H1. simpl. rewrite H2.
  destruct e; simpl; eexists; (split; [reflexivity|]); (split; [in_list|]);
    (split; [eexists; reflexivity | done]).
Qed.

(** X5. A POST whose body is JSON but not an object (an array, a string, a
    number, a boolean, null) is answered with the generic 500 error, not
    with a 400, and no completion call is issued. *)
Theorem process_complaint_json_not_object
    (req : HttpRequest) (w : world) (v : value) :
  method req = py "POST" →
  body req = JsonBody v →
  (∀ d, v ≠ VDict d) →
  process_complaint config format_value completions_create req w
  = (inr (json_response
            (error_object "An error occurred while processing your request.") 500),
     w).
Proof.
  intros Hm Hb Hv.
  unfold process_complaint, try_except, mbind, M_bind, lift, get_json.
  rewrite Hm, Hb.
  destruct v as [| | | | | |d]; try reflexivity. by destruct (Hv d).
Qed.

(** X6. A completion with no choice, or whose first choice has no content, is
    answered with the generic 500 error, for the drafting call as for the
    classification call. *)
Theorem process_complaint_without_content
    (req : HttpRequest) (w : world) (d : gmap str value)
    (choices : list (option str)) :
  method req = py "POST" →
  body req = JsonBody (VDict d) →
  truthy (default VNone (d !! py "complaint")) = true →
  let complaint := default VNone (d !! py "complaint") in
  let findings := default (VStr (py "")) (d !! py "findings") in
  let request1 := response_request config format_value complaint findings in
  let request2 := category_request config format_value complaint findings in
  choices = [] ∨ (∃ more, choices = None :: more) →
  completions_create w request1 = inr choices
  ∨ (∃ draft more,
       completions_create w request1 = inr (Some draft :: more)
       ∧ completions_create (log_call request1 w) request2 = inr choices) →
  ∃ w',
    process_complaint config format_value completions_create req w
    = (inr (json_response
              (error_object "An error occurred while processing your request.")
              500),
       w').
Proof.
  intros Hm Hb Ht complaint findings request1 request2 Hchoices Hcalls.
  rewrite (process_complaint_calls config format_value completions_create
             req w d Hm Hb Ht). simpl.
  fold complaint findings request1 request2.
  destruct Hcalls as [H1 | (draft & more & H1 & H2)].
  - rewrite H1. destruct Hchoices as [-> | [more ->]]; simpl; eauto.
  - rewrite H1. simpl. rewrite H2.
    destruct Hchoices as [-> | [more' ->]]; simpl; eauto.
Qed.

(** X7. Leaving [findings] out is the same as sending the empty string: the
    two requests are answered alike and leave the same world. *)
Theorem findings_default_to_empty
    (req req' : HttpRequest) (w : world) (d : gmap str value) :
  method req' = method req →
  body req = JsonBody (VDict d) →
  body req' = JsonBody (VDict (<[py "findings" := VStr (py "")]> d)) →
  d !! py "findings" = None →
  process_complaint config format_value completions_create req w
  = process_complaint config format_value completions_create req' w.
Proof.
  intros Hm Hb Hb' Hnone.
  unfold process_complaint, try_except, mbind, M_bind, lift, get_json.
  rewrite Hm, Hb, Hb'. cbn [py_get].
  rewrite lookup_insert_ne by done. rewrite lookup_insert_eq, Hnone.
  reflexivity.
Qed.

End ProcessComplaintOutcomes.

(** Witness of [process_complaint_success]. *)
Lemma process_complaint_success_witness :
  let req := Samples.request "POST" (JsonBody (VDict Samples.complaint_only)) in
  let request1 :=
    response_request Samples.config Samples.format_value
      (VStr (py "My card was charged twice.")) (VStr (py "")) in
  let request2 :=
    category_request Samples.config Samples.format_value
      (VStr (py "My card was charged twice.")) (VStr (py "")) in
  let w' := log_call request2 (log_call request1 Samples.world0) in
  ∃ (d : gmap str value) (category response : str) (fields : gmap str value),
    body req = JsonBody (VDict d)
    ∧ truthy (default VNone (d !! py "complaint")) = true
    ∧ resp_body (complaint_result (py "Staff") (py "We are sorry."))
      = Json (VDict fields)
    ∧ fields !! py "category" = Some (VStr category)
    ∧ fields !! py "response" = Some (VStr response)
    ∧ category ∈ valid_categories
    ∧ w' = log_call
             (category_request Samples.config Samples.format_value
                (default VNone (d !! py "complaint"))
                (default (VStr (py "")) (d !! py "findings")))
             (log_call
                (response_request Samples.config Samples.format_value
                   (default VNone (d !! py "complaint"))
                   (default (VStr (py "")) (d !! py "findings")))
                Samples.world0).
Proof.
  apply (process_complaint_success Samples.config Samples.format_value
           (Samples.completions (py "We are sorry.") (py "Staff"))
           (Samples.request "POST" (JsonBody (VDict Samples.complaint_only)))
           Samples.world0).
  - reflexivity.
  - reflexivity.
Defined.

(** Witness of [draft_failure_stops_the_handler]: the service is down. *)
Lemma draft_failure_stops_the_handler_witness :
  let req := Samples.request "POST" (JsonBody (VDict Samples.complaint_only)) in
  let request1 :=
    response_request Samples.config Samples.format_value
      (VStr (py "My card was charged twice.")) (VStr (py "")) in
  ∃ resp,
    process_complaint Samples.config Samples.format_value Samples.completions_down
      req Samples.world0
    = (inr resp, log_call request1 Samples.world0)
    ∧ status_code resp ∈ [400; 500]
    ∧ (OpenAIError = OpenAIError →
       resp = json_response
                (error_object "Failed to generate response due to OpenAI service issue.")
                500).
Proof.
  apply (draft_failure_stops_the_handler Samples.config Samples.format_value
           Samples.completions_down
           (Samples.request "POST" (JsonBody (VDict Samples.complaint_only)))
           Samples.world0 Samples.complaint_only OpenAIError);
    reflexivity.
Defined.

(** Witness of [classification_failure_discards_draft]. *)
Lemma classification_failure_discards_draft_witness :
  let req := Samples.request "POST" (JsonBody (VDict Samples.complaint_only)) in
  let request1 :=
    response_request Samples.config Samples.format_value
      (VStr (py "My card was charged twice.")) (VStr (py "")) in
  let request2 :=
    category_request Samples.config Samples.format_value
      (VStr (py "My card was charged twice.")) (VStr (py "")) in
  ∃ resp,
    process_complaint Samples.config Samples.format_value
      (Samples.completions_draft_only (py "We are sorry.")) req Samples.world0
    = (inr resp, log_call request2 (log_call request1 Samples.world0))
    ∧ status_code resp ∈ [400; 500]
    ∧ (∃ msg, resp_body resp = Json (VDict {[ py "error" := VStr msg ]}))
    ∧ (OpenAIError = OpenAIError →
       resp = json_response
                (error_object "Failed to generate response due to OpenAI service issue.")
                500).
Proof.
  apply (classification_failure_discards_draft Samples.config Samples.format_value
           (Samples.completions_draft_only (py "We are sorry."))
           (Samples.request "POST" (JsonBody (VDict Samples.complaint_only)))
           Samples.world0 Samples.complaint_only (py "We are sorry.") []
           OpenAIError);
    reflexivity.
Defined.

(** Witness of [process_complaint_json_not_object]: the body [["a"]]. *)
Lemma process_complaint_json_not_object_witness :
  process_complaint Samples.config Samples.format_value
    (Samples.completions (py "We are sorry.") (py "Staff"))
    (Samples.request "POST" (JsonBody (VList [VStr (py "a")]))) Samples.world0
  = (inr (json_response
            (error_object "An error occurred while processing your request.") 500),
     Samples.world0).
Proof.
  apply (process_complaint_json_not_object Samples.config Samples.format_value
           (Samples.completions (py "We are sorry.") (py "Staff"))
           (Samples.request "POST" (JsonBody (VList [VStr (py "a")])))
           Samples.world0 (VList [VStr (py "a")])).
  - reflexivity.
  - reflexivity.
  - discriminate.
Defined.

(** Witness of [process_complaint_without_content]: no choice at all. *)
Lemma process_complaint_without_content_witness :
  ∃ w',
    process_complaint Samples.config Samples.format_value
      Samples.completions_no_choice
      (Samples.request "POST" (JsonBody (VDict Samples.complaint_only)))
      Samples.world0
    = (inr (json_response
              (error_object "An error occurred while processing your request.")
              500),
       w').
Proof.
  apply (process_complaint_without_content Samples.config Samples.format_value
           Samples.completions_no_choice
           (Samples.request "POST" (JsonBody (VDict Samples.complaint_only)))
           Samples.world0 Samples.complaint_only []).
  - reflexivity.
  - reflexivity.
  - reflexivity.
  - left. reflexivity.
  - left. reflexivity.
Defined.

(** Witness of [findings_default_to_empty]. *)
Lemma findings_default_to_empty_witness :
  process_complaint Samples.config Samples.format_value
    (Samples.completions (py "We are sorry.") (py "Staff"))
    (Samples.request "POST" (JsonBody (VDict Samples.complaint_only)))
    Samples.world0
  = process_complaint Samples.config Samples.format_value
      (Samples.completions (py "We are sorry.") (py "Staff"))
      (Samples.request "POST"
         (JsonBody (VDict (<[py "findings" := VStr (py "")]> Samples.complaint_only))))
      Samples.world0.
Proof.
  apply (findings_default_to_empty Samples.config Samples.format_value
           (Samples.completions (py "We are sorry.") (py "Staff"))
           (Samples.request "POST" (JsonBody (VDict Samples.complaint_only)))
           (Samples.request "POST"
              (JsonBody (VDict (<[py "findings" := VStr (py "")]>
                                  Samples.complaint_only))))
           Samples.world0 Samples.complaint_only);
    reflexivity.
Defined.

(** ** saveResponse, on every request *)

Section SaveResponseOutcomes.

Variable config : settings.
Variable uuid4 : world -> str.
Variable datetime_now : world -> datetime.
Variable upload_fault : world -> option str -> str -> option exn.
Variable blob_url : option str -> str -> str.
Variable pyodbc_fault : world -> db_step -> option exn.

Lemma wp_pyodbc (step : db_step) (Q : exn + unit → world → Prop) (w : world) :
  match pyodbc_fault w step with
  | Some e => Q (inl e) w
  | None => Q (inr tt) w
  end →
  wp (pyodbc pyodbc_fault step) Q w.
Proof. unfold wp, pyodbc. by destruct (pyodbc_fault w step). Qed.

Lemma wp_commit_insert (r : row) (Q : exn + unit → world → Prop) (w : world) :
  match pyodbc_fault w Commit with
  | Some e => Q (inl e) w
  | None => Q (inr tt) (insert_row r w)
  end →
  wp (commit_insert pyodbc_fault r) Q w.
Proof. unfold wp, commit_insert. by destruct (pyodbc_fault w Commit). Qed.

Lemma wp_upload_blob (container : option str) (blob_name : str)
    (data : list Byte.byte) (Q : exn + unit → world → Prop) (w : world) :
  match upload_fault w container blob_name with
  | Some e => Q (inl e) w
  | None => Q (inr tt) (put_blob blob_name data w)
  end →
  wp (upload_blob upload_fault container blob_name data) Q w.
Proof. unfold wp, upload_blob. by destruct (upload_fault w container blob_name). Qed.

Ltac wp_save :=
  first
    [ wp_control
    | lazymatch goal with
      | |- wp (pyodbc _ ?step) _ ?w =>
          apply wp_pyodbc; destruct (pyodbc_fault w step) eqn:?
      | |- wp (commit_insert _ _) _ ?w =>
          apply wp_commit_insert; destruct (pyodbc_fault w Commit) eqn:?
      | |- wp (upload_blob _ ?c ?b _) _ ?w =>
          apply wp_upload_blob; destruct (upload_fault w c b) eqn:?
      | |- wp (save_response_except ?e) _ _ =>
          unfold save_response_except; destruct e
      end; cbv beta iota zeta ].

Lemma not_own_extension {A} (l : list A) (x : A) : l ≠ l ++ [x].
Proof.
  intros H. apply (f_equal length) in H. rewrite length_app in H. simpl in H. lia.
Qed.

Lemma save_response_outcome (req : HttpRequest) (w : world) :
  ∃ resp w',
    save_response config uuid4 datetime_now upload_fault blob_url pyodbc_fault req w
    = (inr resp, w')
    ∧ status_code resp ∈ handler_statuses
    ∧ completion_log w' = completion_log w
    ∧ (ComplaintResponses w' = ComplaintResponses w
       ∨ ∃ r, ComplaintResponses w' = ComplaintResponses w ++ [r])
    ∧ (blob_store w' = blob_store w
       ∨ ∃ blob_name data, blob_store w' = <[blob_name := data]> (blob_store w)).
Proof.
  apply (wp_returns
           (save_response config uuid4 datetime_now upload_fault blob_url
                          pyodbc_fault req)
           (fun resp w' =>
              status_code resp ∈ handler_statuses
              ∧ completion_log w' = completion_log w
              ∧ (ComplaintResponses w' = ComplaintResponses w
                 ∨ ∃ r, ComplaintResponses w' = ComplaintResponses w ++ [r])
              ∧ (blob_store w' = blob_store w
                 ∨ ∃ blob_name data,
                     blob_store w' = <[blob_name := data]> (blob_store w)))).
  unfold save_response.
  repeat wp_save;
    (eexists; split; [reflexivity|]; split; [in_list|]; split; [reflexivity|];
     split; simpl; eauto).
Qed.

(** X8. Whatever the request and whatever the blob store and the database do,
    [save_response] returns a response and raises nothing; it issues no
    completion call; it leaves the table as it was or with one row more at
    its end, never with a row changed or removed; and it leaves the blob
    store as it was or with one blob written. *)
Theorem save_response_always_answers (req : HttpRequest) (w : world) :
  ∃ resp w',
    save_response config uuid4 datetime_now upload_fault blob_url pyodbc_fault req w
    = (inr resp, w')
    ∧ status_code resp ∈ handler_statuses
    ∧ completion_log w' = completion_log w
    ∧ (ComplaintResponses w' = ComplaintResponses w
       ∨ ∃ r, ComplaintResponses w' = ComplaintResponses w ++ [r])
    ∧ (blob_store w' = blob_store w
       ∨ ∃ blob_name data, blob_store w' = <[blob_name := data]> (blob_store w)).
Proof. apply save_response_outcome. Qed.

Lemma all_required_fields (fd : form_data) :
  negb (all [truthy_str (form fd !! py "originalResponse");
             truthy_str (form fd !! py "editedResponse");
             truthy_str (form fd !! py "originalCategory");
             truthy_str (form fd !! py "editedCategory")]) = false →
  ∀ k, k ∈ required_fields → truthy_str (form fd !! k) = true.
Proof.
  intros H. apply negb_false_iff in H. by apply required_fields_all.
Qed.

Lemma method_is_post (req : HttpRequest) :
  negb (bool_decide (method req = py "POST")) = false → method req = py "POST".
Proof. intros H. apply negb_false_iff in H. by apply bool_decide_eq_true in H. Qed.

Lemma save_response_row
    (req : HttpRequest) (w w' : world) (res : exn + HttpResponse) (r : row) :
  save_response config uuid4 datetime_now upload_fault blob_url pyodbc_fault req w
  = (res, w') →
  ComplaintResponses w' = ComplaintResponses w ++ [r] →
  ∃ fd,
    method req = py "POST"
    ∧ parsed_form req = inr fd
    ∧ row_of_form fd r
    ∧ ResponseId r = uuid4 w.
Proof.
  intros Hrun.
  assert (wp (save_response config uuid4 datetime_now upload_fault blob_url
                            pyodbc_fault req)
             (fun _ w' =>
                ∀ r, ComplaintResponses w' = ComplaintResponses w ++ [r] →
                     ∃ fd, method req = py "POST"
                           ∧ parsed_form req = inr fd
                           ∧ row_of_form fd r
                           ∧ ResponseId r = uuid4 w) w) as H.
  { unfold save_response.
    repeat wp_save;
      (intros r0 Hr; simpl in Hr;
       first
         [ by destruct (not_own_extension _ _ Hr)
         | apply app_inv_head in Hr; injection Hr as <-;
           eexists; split; [by apply method_is_post|]; split; [reflexivity|];
           split; [|reflexivity];
           unfold row_of_form; simpl;
           repeat split; by apply all_required_fields ]). }
  exact (wp_outcome _ _ _ H _ _ Hrun r).
Qed.

(** X9. Every row [save_response] adds to the table comes from a POST whose
    form had the four required fields: the row holds these fields as they
    were sent, the complaint or "Unknown" when the form has none, the
    identifier drawn for the request, and [IsCorrectCategory] computed from
    the two categories. *)
Theorem save_response_writes_the_form
    (req : HttpRequest) (w w' : world) (res : exn + HttpResponse) (r : row) :
  save_response config uuid4 datetime_now upload_fault blob_url pyodbc_fault req w
  = (res, w') →
  ComplaintResponses w' = ComplaintResponses w ++ [r] →
  ∃ fd,
    method req = py "POST"
    ∧ parsed_form req = inr fd
    ∧ row_of_form fd r
    ∧ ResponseId r = uuid4 w.
Proof. apply save_response_row. Qed.

(** X10. A 200 from [save_response] means that one row was added to the table,
    and the [responseId] of the answer is the [ResponseId] of that row. *)
Theorem save_response_success
    (req : HttpRequest) (w w' : world) (resp : HttpResponse) :
  save_response config uuid4 datetime_now upload_fault blob_url pyodbc_fault req w
  = (inr resp, w') →
  status_code resp = 200 →
  ∃ r,
    ComplaintResponses w' = ComplaintResponses w ++ [r]
    ∧ resp = saved_response (ResponseId r).
Proof.
  intros Hrun. revert resp Hrun.
  assert (wp (save_response config uuid4 datetime_now upload_fault blob_url
                            pyodbc_fault req)
             (fun res w' =>
                ∀ resp, res = inr resp → status_code resp = 200 →
                        ∃ r, ComplaintResponses w' = ComplaintResponses w ++ [r]
                             ∧ resp = saved_response (ResponseId r)) w) as H.
  { unfold save_response.
    repeat wp_save;
      (intros resp [= <-] Hs;
       first [discriminate Hs | eexists; split; reflexivity]). }
  intros resp Hrun. exact (wp_outcome _ _ _ H _ _ Hrun resp eq_refl).
Qed.

Lemma row_of_form_consistent (fd : form_data) (r : row) :
  row_of_form fd r → row_consistent r.
Proof.
  intros (_ & Hor & Her & Hoc & Hec & Hall & Hic).
  unfold row_consistent. rewrite Hic, Hor, Her, Hoc, Hec.
  pose proof (Hall (py "originalCategory")) as Ho.
  pose proof (Hall (py "editedCategory")) as He.
  repeat split; try (apply Hall; unfold required_fields; in_list).
  - destruct (form fd !! py "originalCategory") as [o|];
      [|discriminate Ho; unfold required_fields; in_list].
    destruct (form fd !! py "editedCategory") as [e|];
      [|discriminate He; unfold required_fields; in_list].
    simpl. rewrite bool_decide_eq_true. congruence.
  - intros ->.
    destruct (form fd !! py "editedCategory") as [e|];
      [|discriminate He; unfold required_fields; in_list].
    simpl. by apply bool_decide_eq_true.
Qed.

(** X11. [save_response] keeps the table consistent: if every row has its four
    required columns set and not empty, and [IsCorrectCategory] true exactly
    when the two categories are equal, the same holds of the table after any
    request, whatever the outcome. *)
Theorem save_response_keeps_table_consistent
    (req : HttpRequest) (w w' : world) (res : exn + HttpResponse) :
  save_response config uuid4 datetime_now upload_fault blob_url pyodbc_fault req w
  = (res, w') →
  Forall row_consistent (ComplaintResponses w) →
  Forall row_consistent (ComplaintResponses w').
Proof.
  intros Hrun Hinv.
  destruct (save_response_outcome req w)
    as (resp & w'' & Hrun' & _ & _ & [Hsame | [r Hmore]] & _);
    rewrite Hrun in Hrun'; injection Hrun' as -> <-.
  - by rewrite Hsame.
  - rewrite Hmore. apply Forall_app. split; [exact Hinv|].
    apply Forall_singleton.
    destruct (save_response_row req w w' _ r Hrun Hmore)
      as (fd & _ & _ & Hrow & _).
    by apply (row_of_form_consistent fd).
Qed.

Lemma file_truthy_named (f : FileStorage) :
  filename f ≠ [] → file_truthy (Some f) = true.
Proof. intros H. unfold file_truthy. by destruct (filename f). Qed.

Ltac run_save Hm Hf Hall Hfile :=
  unfold save_response, try_except, mbind, M_bind, lift, read_world, mret, M_ret,
    pyodbc, commit_insert, upload_blob;
  rewrite Hm, Hf, bool_decide_eq_true_2 by reflexivity;
  cbn [negb]; cbv beta iota zeta;
  rewrite (proj2 (required_fields_all _) Hall), Hfile;
  cbn [negb]; cbv beta iota zeta.

(** X12. With an attachment, a blob store and a database that work:
    [save_response] stores the bytes of the file under the identifier of
    the response followed by "/" and the file name, adds one row whose
    [DocumentUrl] is the URL of that blob, and answers 200 with the
    identifier. Reading the blob back gives the bytes sent. *)
Theorem save_response_with_attachment
    (req : HttpRequest) (w : world) (fd : form_data) (f : FileStorage) :
  method req = py "POST" →
  parsed_form req = inr fd →
  (∀ k, k ∈ required_fields → truthy_str (form fd !! k) = true) →
  files fd !! py "document" = Some f →
  filename f ≠ [] →
  let response_id := uuid4 w in
  let blob_name := response_id ++ py "/" ++ filename f in
  let container := STORAGE_CONTAINER_NAME config in
  upload_fault w container blob_name = None →
  (∀ w0 step, pyodbc_fault w0 step = None) →
  ∃ r w',
    save_response config uuid4 datetime_now upload_fault blob_url pyodbc_fault req w
    = (inr (saved_response response_id), w')
    ∧ blob_store w' = <[blob_name := content f]> (blob_store w)
    ∧ blob_store w' !! blob_name = Some (content f)
    ∧ ComplaintResponses w' = ComplaintResponses w ++ [r]
    ∧ DocumentUrl r = blob_url container blob_name
    ∧ ResponseId r = response_id.
Proof.
  intros Hm Hf Hall Hfile Hname response_id blob_name container Hup Hdb.
  run_save Hm Hf Hall Hfile.
  rewrite (file_truthy_named f Hname). cbv beta iota zeta.
  fold response_id blob_name container. rewrite Hup. cbv beta iota zeta.
  rewrite !Hdb. cbv beta iota zeta.
  eexists _, _. split; [reflexivity|]. simpl.
  split; [reflexivity|]. split; [apply lookup_insert_eq|]. by repeat split.
Qed.

(** X13. The upload is not undone. When the blob was stored and the database
    session then fails before the commit, with [pyodbc.Error], the answer is
    the 500 database error, the table is as it was, and the blob stays in
    the store. *)
Theorem save_response_leaves_blob_on_database_failure
    (req : HttpRequest) (w : world) (fd : form_data) (f : FileStorage) :
  method req = py "POST" →
  parsed_form req = inr fd →
  (∀ k, k ∈ required_fields → truthy_str (form fd !! k) = true) →
  files fd !! py "document" = Some f →
  filename f ≠ [] →
  let blob_name := uuid4 w ++ py "/" ++ filename f in
  let container := STORAGE_CONTAINER_NAME config in
  let w1 := put_blob blob_name (content f) w in
  upload_fault w container blob_name = None →
  (∃ step, step ∈ [Connect; Cursor; Execute; Commit]
           ∧ pyodbc_fault w1 step ≠ None) →
  (∀ step e, step ∈ [Connect; Cursor; Execute; Commit] →
             pyodbc_fault w1 step = Some e → e = pyodbc_Error) →
  save_response config uuid4 datetime_now upload_fault blob_url pyodbc_fault req w
  = (inr (json_response
            (error_object "Failed to save response due to database issue.") 500),
     w1)
  ∧ ComplaintResponses w1 = ComplaintResponses w
  ∧ blob_store w1 !! blob_name = Some (content f).
Proof.
  intros Hm Hf Hall Hfile Hname blob_name container w1 Hup (step & Hstep & Hfault) Herr.
  split; [|split; [reflexivity | apply lookup_insert_eq]].
  run_save Hm Hf Hall Hfile.
  rewrite (file_truthy_named f Hname). cbv beta iota zeta.
  fold blob_name container. rewrite Hup. cbv beta iota zeta. fold w1.
  destruct (pyodbc_fault w1 Connect) as [e|] eqn:E1; cbv beta iota zeta.
  { rewrite (Herr Connect e) by (done || in_list). reflexivity. }
  destruct (pyodbc_fault w1 Cursor) as [e|] eqn:E2; cbv beta iota zeta.
  { rewrite (Herr Cursor e) by (done || in_list). reflexivity. }
  destruct (pyodbc_fault w1 Execute) as [e|] eqn:E3; cbv beta iota zeta.
  { rewrite (Herr Execute e) by (done || in_list). reflexivity. }
  destruct (pyodbc_fault w1 Commit) as [e|] eqn:E4; cbv beta iota zeta.
  { rewrite (Herr Commit e) by (done || in_list). reflexivity. }
  exfalso. apply Hfault.
  repeat (apply elem_of_cons in Hstep as [-> | Hstep]; [done|]).
  by apply elem_of_nil in Hstep.
Qed.

(** X14. When the upload raises, the database is not touched: the world is the
    one before the request and the answer is an error. *)
Theorem save_response_upload_failure
    (req : HttpRequest) (w : world) (fd : form_data) (f : FileStorage) (e : exn) :
  method req = py "POST" →
  parsed_form req = inr fd →
  (∀ k, k ∈ required_fields → truthy_str (form fd !! k) = true) →
  files fd !! py "document" = Some f →
  filename f ≠ [] →
  upload_fault w (STORAGE_CONTAINER_NAME config) (uuid4 w ++ py "/" ++ filename f)
  = Some e →
  ∃ resp,
    save_response config uuid4 datetime_now upload_fault blob_url pyodbc_fault req w
    = (inr resp, w)
    ∧ status_code resp ∈ [400; 500].
Proof.
  intros Hm Hf Hall Hfile Hname Hup.
  run_save Hm Hf Hall Hfile.
  rewrite (file_truthy_named f Hname). cbv beta iota zeta.
  rewrite Hup. cbv beta iota zeta.
  destruct e; simpl; eexists; (split; [reflexivity | in_list]).
Qed.

(** X15. A failure after the commit does not undo it. When the session gets
    through the commit and closing the cursor or the connection then raises,
    the answer is an error although the row is in the table. *)
Theorem save_response_error_after_commit
    (req : HttpRequest) (w : world) (fd : form_data) (e : exn) :
  method req = py "POST" →
  parsed_form req = inr fd →
  (∀ k, k ∈ required_fields → truthy_str (form fd !! k) = true) →
  files fd !! py "document" = None →
  (∀ step, step ∈ [Connect; Cursor; Execute; Commit] →
           pyodbc_fault w step = None) →
  (∀ w0, pyodbc_fault w0 CursorClose = Some e
         ∨ (pyodbc_fault w0 CursorClose = None
            ∧ pyodbc_fault w0 ConnClose = Some e)) →
  ∃ resp r,
    save_response config uuid4 datetime_now upload_fault blob_url pyodbc_fault req w
    = (inr resp, insert_row r w)
    ∧ status_code resp ∈ [400; 500]
    ∧ ResponseId r = uuid4 w
    ∧ ComplaintResponses (insert_row r w) = ComplaintResponses w ++ [r].
Proof.
  intros Hm Hf Hall Hfile Hok Hclose.
  run_save Hm Hf Hall Hfile.
  rewrite !Hok by in_list. cbv beta iota zeta.
  match goal with
  | |- context [insert_row ?r0 w] => set (r := r0)
  end.
  destruct (Hclose (insert_row r w)) as [Hc | [Hc Hc']].
  - rewrite Hc. cbv beta iota zeta.
    destruct e; simpl; eexists _, r;
      (split; [reflexivity|]); (split; [in_list|]); done.
  - rewrite Hc. cbv beta iota zeta. rewrite Hc'. cbv beta iota zeta.
    destruct e; simpl; eexists _, r;
      (split; [reflexivity|]); (split; [in_list|]); done.
Qed.

End SaveResponseOutcomes.

(** Witness of [save_response_writes_the_form]. *)
Lemma save_response_writes_the_form_witness :
  ∃ fd,
    method (Samples.post_form Samples.full_form) = py "POST"
    ∧ parsed_form (Samples.post_form Samples.full_form) = inr fd
    ∧ row_of_form fd Samples.saved_row
    ∧ ResponseId Samples.saved_row = Samples.uuid4 Samples.world0.
Proof.
  apply (save_response_writes_the_form Samples.config Samples.uuid4
           Samples.datetime_now Samples.upload_fault Samples.blob_url
           Samples.pyodbc_fault (Samples.post_form Samples.full_form)
           Samples.world0 (insert_row Samples.saved_row Samples.world0)
           (inr (saved_response (Samples.uuid4 Samples.world0))) Samples.saved_row).
  - reflexivity.
  - reflexivity.
Defined.

(** Witness of [save_response_success]. *)
Lemma save_response_success_witness :
  ∃ r,
    ComplaintResponses (insert_row Samples.saved_row Samples.world0)
    = ComplaintResponses Samples.world0 ++ [r]
    ∧ saved_response (Samples.uuid4 Samples.world0) = saved_response (ResponseId r).
Proof.
  apply (save_response_success Samples.config Samples.uuid4
           Samples.datetime_now Samples.upload_fault Samples.blob_url
           Samples.pyodbc_fault (Samples.post_form Samples.full_form)
           Samples.world0 (insert_row Samples.saved_row Samples.world0)
           (saved_response (Samples.uuid4 Samples.world0))).
  - reflexivity.
  - reflexivity.
Defined.

(** Witness of [save_response_keeps_table_consistent]: from the empty
    table. *)
Lemma save_response_keeps_table_consistent_witness :
  Forall row_consistent (ComplaintResponses (insert_row Samples.saved_row Samples.world0)).
Proof.
  apply (save_response_keeps_table_consistent Samples.config Samples.uuid4
           Samples.datetime_now Samples.upload_fault Samples.blob_url
           Samples.pyodbc_fault (Samples.post_form Samples.full_form)
           Samples.world0 (insert_row Samples.saved_row Samples.world0)
           (inr (saved_response (Samples.uuid4 Samples.world0)))).
  - reflexivity.
  - apply Forall_nil_2.
Defined.

(** Witness of [save_response_with_attachment]: evidence.pdf. *)
Lemma save_response_with_attachment_witness :
  let response_id := Samples.uuid4 Samples.world0 in
  let blob_name := response_id ++ py "/" ++ py "evidence.pdf" in
  let container := STORAGE_CONTAINER_NAME Samples.config in
  ∃ r w',
    save_response Samples.config Samples.uuid4 Samples.datetime_now
      Samples.upload_fault Samples.blob_url Samples.pyodbc_fault
      (Samples.post_form Samples.form_with_file) Samples.world0
    = (inr (saved_response response_id), w')
    ∧ blob_store w' = <[blob_name := [Byte.x25]]> (blob_store Samples.world0)
    ∧ blob_store w' !! blob_name = Some [Byte.x25]
    ∧ ComplaintResponses w' = ComplaintResponses Samples.world0 ++ [r]
    ∧ DocumentUrl r = Samples.blob_url container blob_name
    ∧ ResponseId r = response_id.
Proof.
  apply (save_response_with_attachment Samples.config Samples.uuid4
           Samples.datetime_now Samples.upload_fault Samples.blob_url
           Samples.pyodbc_fault (Samples.post_form Samples.form_with_file)
           Samples.world0 Samples.form_with_file Samples.evidence).
  - reflexivity.
  - reflexivity.
  - intros k Hk. unfold required_fields in Hk.
    repeat (apply elem_of_cons in Hk as [->|Hk]; [reflexivity|]).
    by apply elem_of_nil in Hk.
  - reflexivity.
  - discriminate.
  - reflexivity.
  - reflexivity.
Defined.

(** Witness of [save_response_leaves_blob_on_database_failure]: the
    database is down. *)
Lemma save_response_leaves_blob_on_database_failure_witness :
  let blob_name := Samples.uuid4 Samples.world0 ++ py "/" ++ py "evidence.pdf" in
  let w1 := put_blob blob_name [Byte.x25] Samples.world0 in
  save_response Samples.config Samples.uuid4 Samples.datetime_now
    Samples.upload_fault Samples.blob_url Samples.pyodbc_down
    (Samples.post_form Samples.form_with_file) Samples.world0
  = (inr (json_response
            (error_object "Failed to save response due to database issue.") 500),
     w1)
  ∧ ComplaintResponses w1 = ComplaintResponses Samples.world0
  ∧ blob_store w1 !! blob_name = Some [Byte.x25].
Proof.
  apply (save_response_leaves_blob_on_database_failure Samples.config
           Samples.uuid4 Samples.datetime_now Samples.upload_fault
           Samples.blob_url Samples.pyodbc_down
           (Samples.post_form Samples.form_with_file)
           Samples.world0 Samples.form_with_file Samples.evidence).
  - reflexivity.
  - reflexivity.
  - intros k Hk. unfold required_fields in Hk.
    repeat (apply elem_of_cons in Hk as [->|Hk]; [reflexivity|]).
    by apply elem_of_nil in Hk.
  - reflexivity.
  - discriminate.
  - reflexivity.
  - exists Connect. split; [apply list_elem_of_here | discriminate].
  - intros step e _ [= <-]. reflexivity.
Defined.

(** Witness of [save_response_upload_failure]: the blob store is down. *)
Lemma save_response_upload_failure_witness :
  ∃ resp,
    save_response Samples.config Samples.uuid4 Samples.datetime_now
      Samples.upload_down Samples.blob_url Samples.pyodbc_fault
      (Samples.post_form Samples.form_with_file) Samples.world0
    = (inr resp, Samples.world0)
    ∧ status_code resp ∈ [400; 500].
Proof.
  apply (save_response_upload_failure Samples.config Samples.uuid4
           Samples.datetime_now Samples.upload_down Samples.blob_url
           Samples.pyodbc_fault (Samples.post_form Samples.form_with_file)
           Samples.world0 Samples.form_with_file Samples.evidence
           (OtherException (py "ServiceRequestError"))).
  - reflexivity.
  - reflexivity.
  - intros k Hk. unfold required_fields in Hk.
    repeat (apply elem_of_cons in Hk as [->|Hk]; [reflexivity|]).
    by apply elem_of_nil in Hk.
  - reflexivity.
  - discriminate.
  - reflexivity.
Defined.

(** Witness of [save_response_error_after_commit]: the connection fails to
    close. *)
Lemma save_response_error_after_commit_witness :
  ∃ resp r,
    save_response Samples.config Samples.uuid4 Samples.datetime_now
      Samples.upload_fault Samples.blob_url Samples.pyodbc_close_fails
      (Samples.post_form Samples.full_form) Samples.world0
    = (inr resp, insert_row r Samples.world0)
    ∧ status_code resp ∈ [400; 500]
    ∧ ResponseId r = Samples.uuid4 Samples.world0
    ∧ ComplaintResponses (insert_row r Samples.world0)
      = ComplaintResponses Samples.world0 ++ [r].
Proof.
  apply (save_response_error_after_commit Samples.config Samples.uuid4
           Samples.datetime_now Samples.upload_fault Samples.blob_url
           Samples.pyodbc_close_fails (Samples.post_form Samples.full_form)
           Samples.world0 Samples.full_form pyodbc_Error).
  - reflexivity.
  - reflexivity.
  - intros k Hk. unfold required_fields in Hk.
    repeat (apply elem_of_cons in Hk as [->|Hk]; [reflexivity|]).
    by apply elem_of_nil in Hk.
  - reflexivity.
  - intros step Hstep.
    repeat (apply elem_of_cons in Hstep as [->|Hstep]; [reflexivity|]).
    by apply elem_of_nil in Hstep.
  - intros w0. right. split; reflexivity.
Defined.

(** ** GetSavedResponses *)

Lemma existsb_imap_false {A B} (P : B → bool) (F : nat → A → B) (l : list A) :
  (∀ n x, P (F n x) = false) → existsb P (imap F l) = false.
Proof.
  revert F. induction l as [|x l IH]; intros F H; [done|].
  rewrite imap_cons. simpl. rewrite H. simpl. apply IH. intros n y. apply H.
Qed.

Section Listing.

Variable isoformat : datetime -> str.
Variable pyodbc_fault : world -> db_step -> option exn.
Variable identity : nat -> Z.

(** After the loop over the results no [datetime] is left in a row, and
    what [json.dumps] writes for it is the entry [listed]. *)
Lemma row_listing (n : nat) (r : row) :
  existsb (fun kv : str * cell => is_datetime kv.2)
          (map_to_list (saved_at_iso isoformat (row_dict (fetched identity n r))))
  = false
  ∧ VDict (plain_value <$> saved_at_iso isoformat (row_dict (fetched identity n r)))
    = listed isoformat identity n r.
Proof.
  destruct r as [rid c [o1|] [o2|] [o3|] [o4|] u t b];
    split; vm_compute; reflexivity.
Qed.

Lemma results_serializable (table : list row) :
  dumps_responses
    (saved_at_iso isoformat <$> ((fun cells => row_dict cells) <$> imap (fetched identity) table))
  = inr (VDict {[ py "responses" := VList (imap (listed isoformat identity) table) ]}).
Proof.
  unfold dumps_responses. rewrite !fmap_imap.
  rewrite existsb_imap_false; [|intros n r; apply (row_listing n r)].
  rewrite (imap_ext _ (listed isoformat identity) table); [done|].
  intros n r _. apply (row_listing n r).
Qed.

Ltac wp_listing :=
  first
    [ wp_control
    | lazymatch goal with
      | |- wp (pyodbc _ ?step) _ ?w =>
          apply wp_pyodbc; destruct (pyodbc_fault w step) eqn:?
      | |- wp (get_saved_responses_except ?e) _ _ =>
          unfold get_saved_responses_except; destruct e
      end; cbv beta iota zeta ].

(** X16. With a database session that goes through, a GET to GetSavedResponses
    is answered 200 with one entry per row of the table, in the order of
    the table: the nine selected columns, [SavedAt] in ISO format, and no
    [IsCorrectCategory]. Serialising the result cannot fail, because the
    loop has turned every [datetime] into text. *)
Theorem get_saved_responses_lists_the_table (req : HttpRequest) (w : world) :
  method req = py "GET" →
  (∀ step, step ∈ listing_steps → pyodbc_fault w step = None) →
  get_saved_responses isoformat pyodbc_fault identity req w
  = (inr (listing_response (imap (listed isoformat identity) (ComplaintResponses w))),
     w).
Proof.
  intros Hm Hok.
  unfold get_saved_responses, try_except, mbind, M_bind, lift, read_world, mret,
    M_ret, pyodbc.
  rewrite Hm, bool_decide_eq_true_2 by reflexivity.
  cbn [negb]. cbv beta iota zeta.
  rewrite !Hok by (unfold listing_steps; in_list). cbv beta iota zeta.
  rewrite results_serializable. reflexivity.
Qed.

(** X17. [get_saved_responses] only reads: whatever the request and whatever
    the database does, it returns a response, raises nothing and leaves the
    world as it was. Its statuses are 200, 405 and 500, and a 200 carries
    as many entries as the table has rows. *)
Theorem get_saved_responses_only_reads (req : HttpRequest) (w : world) :
  ∃ resp,
    get_saved_responses isoformat pyodbc_fault identity req w = (inr resp, w)
    ∧ status_code resp ∈ [200; 405; 500]
    ∧ (status_code resp = 200 →
       ∃ entries,
         resp = listing_response entries
         ∧ length entries = length (ComplaintResponses w)).
Proof.
  destruct (wp_returns
              (get_saved_responses isoformat pyodbc_fault identity req)
              (fun resp w' =>
                 w' = w
                 ∧ status_code resp ∈ [200; 405; 500]
                 ∧ (status_code resp = 200 →
                    ∃ entries,
                      resp = listing_response entries
                      ∧ length entries = length (ComplaintResponses w))) w)
    as (resp & w' & Hrun & -> & Hstatus & Hentries);
    [|by exists resp].
  unfold get_saved_responses.
  repeat wp_listing;
    (eexists; split; [reflexivity|]; split; [reflexivity|]; split; [in_list|];
     intros Hs; try discriminate Hs).
  match goal with
  | H : dumps_responses _ = inr _ |- _ =>
      rewrite results_serializable in H; injection H as <-
  end.
  eexists. split; [reflexivity|]. apply length_imap.
Qed.

(** X18. A database failure is never answered with a partial list: when a step
    of the session raises [pyodbc.Error], be it while closing, the answer
    is the 500 database error. *)
Theorem get_saved_responses_database_failure (req : HttpRequest) (w : world) :
  method req = py "GET" →
  (∃ step, step ∈ listing_steps ∧ pyodbc_fault w step ≠ None) →
  (∀ step e, step ∈ listing_steps → pyodbc_fault w step = Some e →
             e = pyodbc_Error) →
  get_saved_responses isoformat pyodbc_fault identity req w
  = (inr (json_response
            (error_object "Failed to retrieve saved responses due to database issue.")
            500),
     w).
Proof.
  intros Hm (step & Hstep & Hfault) Herr.
  unfold get_saved_responses, try_except, mbind, M_bind, lift, read_world, mret,
    M_ret, pyodbc.
  rewrite Hm, bool_decide_eq_true_2 by reflexivity.
  cbn [negb]. cbv beta iota zeta.
  destruct (pyodbc_fault w Connect) as [e|] eqn:E1; cbv beta iota zeta.
  { rewrite (Herr Connect e) by (done || (unfold listing_steps; in_list)). done. }
  destruct (pyodbc_fault w Cursor) as [e|] eqn:E2; cbv beta iota zeta.
  { rewrite (Herr Cursor e) by (done || (unfold listing_steps; in_list)). done. }
  destruct (pyodbc_fault w Execute) as [e|] eqn:E3; cbv beta iota zeta.
  { rewrite (Herr Execute e) by (done || (unfold listing_steps; in_list)). done. }
  destruct (pyodbc_fault w Fetch) as [e|] eqn:E4; cbv beta iota zeta.
  { rewrite (Herr Fetch e) by (done || (unfold listing_steps; in_list)). done. }
  destruct (pyodbc_fault w CursorClose) as [e|] eqn:E5; cbv beta iota zeta.
  { rewrite (Herr CursorClose e) by (done || (unfold listing_steps; in_list)). done. }
  destruct (pyodbc_fault w ConnClose) as [e|] eqn:E6; cbv beta iota zeta.
  { rewrite (Herr ConnClose e) by (done || (unfold listing_steps; in_list)). done. }
  exfalso. apply Hfault. unfold listing_steps in Hstep.
  repeat (apply elem_of_cons in Hstep as [-> | Hstep]; [done|]).
  by apply elem_of_nil in Hstep.
Qed.

End Listing.

(** Witness of [get_saved_responses_lists_the_table]: the table with the
    one sample row. *)
Lemma get_saved_responses_lists_the_table_witness :
  let w := insert_row Samples.saved_row Samples.world0 in
  get_saved_responses Samples.isoformat Samples.pyodbc_fault Samples.identity
    (Samples.request "GET" NoBody) w
  = (inr (listing_response
            (imap (listed Samples.isoformat Samples.identity) (ComplaintResponses w))),
     w).
Proof.
  apply (get_saved_responses_lists_the_table Samples.isoformat
           Samples.pyodbc_fault Samples.identity
           (Samples.request "GET" NoBody)
           (insert_row Samples.saved_row Samples.world0)).
  - reflexivity.
  - intros step _. reflexivity.
Defined.

(** Witness of [get_saved_responses_database_failure]: the database is
    down. *)
Lemma get_saved_responses_database_failure_witness :
  get_saved_responses Samples.isoformat Samples.pyodbc_down Samples.identity
    (Samples.request "GET" NoBody) Samples.world0
  = (inr (json_response
            (error_object "Failed to retrieve saved responses due to database issue.")
            500),
     Samples.world0).
Proof.
  apply (get_saved_responses_database_failure Samples.isoformat
           Samples.pyodbc_down Samples.identity
           (Samples.request "GET" NoBody) Samples.world0).
  - reflexivity.
  - exists Connect. split; [apply list_elem_of_here | discriminate].
  - intros step e _ [= <-]. reflexivity.
Defined.

(** ** GetRoles, on every request *)

Lemma role_lookup_vocabulary (v : value) (role : str) :
  role_lookup v = Some role → role ∈ role_vocabulary.
Proof.
  unfold role_lookup, role_vocabulary.
  repeat (destruct (eq_str v _); [intros [= <-]; in_list|]).
  discriminate.
Qed.

Lemma omap_role_lookup_vocabulary (vals : list value) :
  Forall (fun role => role ∈ role_vocabulary) (omap role_lookup vals).
Proof.
  induction vals as [|v vals IH]; [by apply Forall_nil_2|].
  cbn [omap list_omap]. destruct (role_lookup v) as [role|] eqn:E; [|exact IH].
  apply Forall_cons. split; [by apply (role_lookup_vocabulary v)|exact IH].
Qed.

Lemma role_values_raises (l : list value) (e : exn) :
  role_values l = inl e → e = AttributeError.
Proof.
  induction l as [|claim l IH]; [discriminate|].
  cbn [role_values]. destruct claim; cbn [py_get]; try by intros [= <-].
  destruct (role_values l) as [e'|vals]; [|discriminate].
  intros [= <-]. by apply IH.
Qed.

Lemma roles_of_body_raises (v : value) (e : exn) :
  roles_of_body v = inl e → e = AttributeError ∨ e = TypeError.
Proof.
  unfold roles_of_body, get_roles_claims.
  destruct (py_get v (py "claims") (VList [])) as [e'|user_claims] eqn:Hget.
  { destruct v; simpl in Hget; try discriminate; injection Hget as <-.
    all: intros [= <-]; by left. }
  destruct (py_iter user_claims) as [e'|elements] eqn:Hiter.
  { destruct user_claims; simpl in Hiter; try discriminate; injection Hiter as <-.
    all: intros [= <-]; by right. }
  destruct (role_values elements) as [e'|vals] eqn:Hvals; [|discriminate].
  intros [= <-]. left. by apply (role_values_raises elements).
Qed.

Lemma roles_of_body_vocabulary (v : value) (roles : list str) :
  roles_of_body v = inr roles → Forall (fun role => role ∈ role_vocabulary) roles.
Proof.
  unfold roles_of_body.
  destruct (get_roles_claims v) as [e|claim_roles]; [discriminate|].
  intros [= <-]. rewrite fold_push_role. apply omap_role_lookup_vocabulary.
Qed.

Lemma read_body_outcome (req : HttpRequest) (w : world) :
  (∃ v, read_body req w = (inr v, w))
  ∨ read_body req w = (inl RecursionError, w).
Proof.
  unfold read_body, try_except, lift, get_json.
  case_bool_decide; [|left; by eexists].
  destruct (body req); first [left; by eexists | by right].
Qed.

(** X19. Whatever the request, [get_roles] leaves the world as it was. When
    it returns, the answer is a 200 whose JSON object has a [roles] field,
    a list of strings all among "complaintsysadmin", "complaintsysuser" and
    "temp_guest"; it has no error response of its own. When it does not
    return, what it raises is [AttributeError] or [TypeError], from a body
    of the wrong shape, or [RecursionError], from a body nested too deep for
    [json.loads]. *)
Theorem get_roles_outcomes
    (req : HttpRequest) (w w' : world) (res : exn + HttpResponse) :
  get_roles req w = (res, w') →
  w' = w
  ∧ match res with
    | inr resp =>
        ∃ (roles : list str) (fields : gmap str value),
          resp = roles_response roles
          ∧ status_code resp = 200
          ∧ resp_body resp = Json (VDict fields)
          ∧ fields !! py "roles" = Some (VList (VStr <$> roles))
          ∧ Forall (fun role => role ∈ role_vocabulary) roles
    | inl e => e = AttributeError ∨ e = TypeError ∨ e = RecursionError
    end.
Proof.
  unfold get_roles, mbind, M_bind, lift.
  destruct (read_body_outcome req w) as [[v ->] | ->].
  - destruct (roles_of_body v) as [e|roles] eqn:Hroles; intros [= <- <-].
    + split; [done|].
      destruct (roles_of_body_raises v e Hroles) as [-> | ->]; auto.
    + split; [done|].
      destruct (roles_response_carries roles) as (Hstatus & fields & Hbody & Hfield).
      exists roles, fields. repeat split; auto.
      by apply (roles_of_body_vocabulary v).
  - intros [= <- <-]. auto.
Qed.

Lemma role_values_app (l1 l2 : list value) (v1 v2 : list value) :
  role_values l1 = inr v1 →
  role_values l2 = inr v2 →
  role_values (l1 ++ l2) = inr (v1 ++ v2).
Proof.
  revert v1. induction l1 as [|claim l1 IH]; intros v1.
  - by intros [= <-].
  - cbn [role_values app]. destruct (py_get claim (py "typ") VNone); [discriminate|].
    destruct (py_get claim (py "val") VNone); [discriminate|].
    destruct (role_values l1) as [e|vals1]; [discriminate|].
    intros [= <-] H2. rewrite (IH vals1 eq_refl H2).
    by destruct (_ && _).
Qed.

(** X20. The roles of two lists of claims put end to end are the roles of the
    first followed by the roles of the second: each claim counts on its
    own, and the order of the claims is the order of the roles. *)
Theorem roles_of_appended_claims
    (d1 d2 d : gmap str value) (l1 l2 : list value) (roles1 roles2 : list str) :
  d1 !! py "claims" = Some (VList l1) →
  d2 !! py "claims" = Some (VList l2) →
  d !! py "claims" = Some (VList (l1 ++ l2)) →
  roles_of_body (VDict d1) = inr roles1 →
  roles_of_body (VDict d2) = inr roles2 →
  roles_of_body (VDict d) = inr (roles1 ++ roles2).
Proof.
  intros H1 H2 H. unfold roles_of_body, get_roles_claims, py_get.
  rewrite H1, H2, H. cbn [default from_option id py_iter].
  destruct (role_values l1) as [e|v1] eqn:E1; [discriminate|].
  destruct (role_values l2) as [e|v2] eqn:E2; [discriminate|].
  intros [= <-] [= <-]. rewrite (role_values_app l1 l2 v1 v2 E1 E2).
  rewrite !fold_push_role. cbn [app]. by rewrite omap_app.
Qed.

Lemma role_values_not_object (l : list value) (claim : value) :
  claim ∈ l → (∀ d, claim ≠ VDict d) → role_values l = inl AttributeError.
Proof.
  intros Hin Hclaim. induction l as [|c l IH]; [by apply elem_of_nil in Hin|].
  apply elem_of_cons in Hin as [<- | Hin].
  - cbn [role_values]. destruct claim; try reflexivity. by destruct (Hclaim d).
  - cbn [role_values]. destruct c; try reflexivity. cbn [py_get].
    by rewrite (IH Hin).
Qed.

(** X21. One claim that is not an object fails the whole request: a POST whose
    list of claims has such an element is not answered, even if the other
    claims are well formed; [get_roles] raises [AttributeError]. *)
Theorem get_roles_one_bad_claim
    (req : HttpRequest) (w : world) (d : gmap str value)
    (l : list value) (claim : value) :
  method req = py "POST" →
  body req = JsonBody (VDict d) →
  d !! py "claims" = Some (VList l) →
  claim ∈ l →
  (∀ d', claim ≠ VDict d') →
  get_roles req w = (inl AttributeError, w).
Proof.
  intros Hm Hb Hd Hin Hclaim.
  unfold get_roles, mbind, M_bind, lift.
  rewrite (read_body_post_json req w _ Hm Hb).
  unfold roles_of_body, get_roles_claims, py_get. rewrite Hd.
  cbn [default from_option id py_iter].
  by rewrite (role_values_not_object l claim Hin Hclaim).
Qed.

(** Witness of [get_roles_outcomes]: the sample claims, sent by POST. *)
Lemma get_roles_outcomes_witness :
  let resp :=
    roles_response [py "temp_guest"; py "complaintsysadmin"; py "temp_guest"] in
  Samples.world0 = Samples.world0
  ∧ ∃ (roles : list str) (fields : gmap str value),
      resp = roles_response roles
      ∧ status_code resp = 200
      ∧ resp_body resp = Json (VDict fields)
      ∧ fields !! py "roles" = Some (VList (VStr <$> roles))
      ∧ Forall (fun role => role ∈ role_vocabulary) roles.
Proof.
  apply (get_roles_outcomes
           (Samples.request "POST" (JsonBody (VDict Samples.claims_body)))
           Samples.world0 Samples.world0
           (inr (roles_response
                   [py "temp_guest"; py "complaintsysadmin"; py "temp_guest"]))).
  reflexivity.
Defined.

(** Witness of [roles_of_appended_claims]: the sample claims after a guest
    claim. *)
Lemma roles_of_appended_claims_witness :
  roles_of_body
    (VDict {[ py "claims" :=
                VList ([VDict (Samples.claim "roles" "guest")]
                       ++ (VDict <$> Samples.claims)) ]})
  = inr ([py "temp_guest"]
         ++ [py "temp_guest"; py "complaintsysadmin"; py "temp_guest"]).
Proof.
  apply (roles_of_appended_claims
           {[ py "claims" := VList [VDict (Samples.claim "roles" "guest")] ]}
           Samples.claims_body
           {[ py "claims" :=
                VList ([VDict (Samples.claim "roles" "guest")]
                       ++ (VDict <$> Samples.claims)) ]}
           [VDict (Samples.claim "roles" "guest")] (VDict <$> Samples.claims));
    reflexivity.
Defined.

(** Witness of [get_roles_one_bad_claim]: a guest claim followed by a
    string. *)
Lemma get_roles_one_bad_claim_witness :
  get_roles
    (Samples.request "POST"
       (JsonBody (VDict {[ py "claims" :=
                             VList [VDict (Samples.claim "roles" "guest");
                                    VStr (py "guest")] ]})))
    Samples.world0
  = (inl AttributeError, Samples.world0).
Proof.
  apply (get_roles_one_bad_claim
           (Samples.request "POST"
              (JsonBody (VDict {[ py "claims" :=
                                    VList [VDict (Samples.claim "roles" "guest");
                                           VStr (py "guest")] ]})))
           Samples.world0
           {[ py "claims" := VList [VDict (Samples.claim "roles" "guest");
                                    VStr (py "guest")] ]}
           [VDict (Samples.claim "roles" "guest"); VStr (py "guest")]
           (VStr (py "guest"))).
  - reflexivity.
  - reflexivity.
  - reflexivity.
  - apply list_elem_of_further, list_elem_of_here.
  - discriminate.
Defined.

(** ** Start-up, when it succeeds *)

Section StartupSuccess.

Variables AzureOpenAI_client BlobServiceClient : Type.
Variable AzureOpenAI :
  option str -> option str -> option str -> exn + AzureOpenAI_client.
Variable from_connection_string : option str -> exn + BlobServiceClient.

(** X22. When the import succeeds, the settings the handlers read are the
    environment's, the five variables of the check are set and not empty
    (the deployment name and the database connection string the handlers
    use among them), and the two clients are the ones the constructors
    returned for the endpoint, key and API version and for the storage
    connection string. *)
Theorem module_init_success
    (environ : gmap str str) (s : settings)
    (client : AzureOpenAI_client) (blob_service_client : BlobServiceClient) :
  module_init AzureOpenAI from_connection_string environ
  = inr (s, (client, blob_service_client)) →
  s = read_environment environ
  ∧ (∀ k, k ∈ checked_variables → truthy_str (environ !! k) = true)
  ∧ AzureOpenAI (AZURE_OPENAI_ENDPOINT s) (AZURE_OPENAI_API_KEY s)
                (AZURE_OPENAI_API_VERSION s) = inr client
  ∧ from_connection_string (STORAGE_CONNECTION_STRING s) = inr blob_service_client.
Proof.
  unfold module_init, build_clients.
  destruct (validate_configuration (read_environment environ)) as [e|[]] eqn:Hv;
    [discriminate|].
  destruct (AzureOpenAI _ _ _) as [e|c] eqn:Hc; [discriminate|].
  destruct (from_connection_string _) as [e|b] eqn:Hb; [discriminate|].
  intros [= <- <- <-]. repeat split; [|exact Hc | exact Hb].
  by apply validate_configuration_passes.
Qed.

End StartupSuccess.

(** Witness of [module_init_success]: the full environment. *)
Lemma module_init_success_witness :
  read_environment Samples.environ = read_environment Samples.environ
  ∧ (∀ k, k ∈ checked_variables → truthy_str (Samples.environ !! k) = true)
  ∧ Samples.AzureOpenAI (AZURE_OPENAI_ENDPOINT (read_environment Samples.environ))
      (AZURE_OPENAI_API_KEY (read_environment Samples.environ))
      (AZURE_OPENAI_API_VERSION (read_environment Samples.environ)) = inr tt
  ∧ Samples.from_connection_string
      (STORAGE_CONNECTION_STRING (read_environment Samples.environ)) = inr tt.
Proof.
  apply (module_init_success _ _ Samples.AzureOpenAI Samples.from_connection_string
           Samples.environ (read_environment Samples.environ) tt tt).
  reflexivity.
Defined.

(** ** The method guards *)

Lemma method_differs (req : HttpRequest) (m : str) :
  negb (bool_decide (method req = m)) = true → method req ≠ m.
Proof. intros H. apply negb_true_iff in H. by apply bool_decide_eq_false in H. Qed.

Lemma method_same (req : HttpRequest) (m : str) :
  negb (bool_decide (method req = m)) = false → method req = m.
Proof. intros H. apply negb_false_iff in H. by apply bool_decide_eq_true in H. Qed.

Section MethodGuards.

Variable config : settings.
Variable format_value : value -> str.
Variable completions_create : world -> chat_request -> exn + list (option str).
Variable uuid4 : world -> str.
Variable datetime_now : world -> datetime.
Variable isoformat : datetime -> str.
Variable upload_fault : world -> option str -> str -> option exn.
Variable blob_url : option str -> str -> str.
Variable pyodbc_fault : world -> db_step -> option exn.
Variable identity : nat -> Z.

Ltac wp_handler :=
  first
    [ wp_control
    | lazymatch goal with
      | |- wp (create _ ?r) _ ?w =>
          apply wp_create; destruct (completions_create w r) eqn:?
      | |- wp (pyodbc _ ?step) _ ?w =>
          apply wp_pyodbc; destruct (pyodbc_fault w step) eqn:?
      | |- wp (commit_insert _ _) _ ?w =>
          apply wp_commit_insert; destruct (pyodbc_fault w Commit) eqn:?
      | |- wp (upload_blob _ ?c ?b _) _ ?w =>
          apply wp_upload_blob; destruct (upload_fault w c b) eqn:?
      | |- wp (process_complaint_except ?e) _ _ =>
          unfold process_complaint_except; destruct e
      | |- wp (save_response_except ?e) _ _ =>
          unfold save_response_except; destruct e
      | |- wp (get_saved_responses_except ?e) _ _ =>
          unfold get_saved_responses_except; destruct e
      end; cbv beta iota zeta ].

Ltac guard_leaf :=
  intros resp0 [= <-]; split;
  [ split; intros H;
    [ first [ discriminate H
            | match goal with
              | G : negb (bool_decide (method _ = _)) = true |- _ =>
                  exact (method_differs _ _ G)
              end ]
    | first [ reflexivity
            | match goal with
              | G : negb (bool_decide (method _ = _)) = false |- _ =>
                  destruct (H (method_same _ _ G))
              end ] ]
  | intros H; first [ by split | discriminate H ] ].

(** X23. The three handlers that check the method answer 405 exactly when the
    method is not theirs (POST for [process_complaint] and [save_response],
    GET for [get_saved_responses]), and then before anything else: the
    world is the one before the request and the response has no header. No
    other path of these handlers answers 405. *)
Theorem method_not_allowed_exactly_on_other_methods
    (req : HttpRequest) (w w' : world) (resp : HttpResponse) :
  (process_complaint config format_value completions_create req w = (inr resp, w') →
   (status_code resp = 405 ↔ method req ≠ py "POST")
   ∧ (status_code resp = 405 → w' = w ∧ headers resp = ∅))
  ∧ (save_response config uuid4 datetime_now upload_fault blob_url pyodbc_fault req w
     = (inr resp, w') →
     (status_code resp = 405 ↔ method req ≠ py "POST")
     ∧ (status_code resp = 405 → w' = w ∧ headers resp = ∅))
  ∧ (get_saved_responses isoformat pyodbc_fault identity req w = (inr resp, w') →
     (status_code resp = 405 ↔ method req ≠ py "GET")
     ∧ (status_code resp = 405 → w' = w ∧ headers resp = ∅)).
Proof.
  split; [|split]; intros Hrun.
  - assert (wp (process_complaint config format_value completions_create req)
               (guarded req (py "POST") w) w) as H.
    { unfold process_complaint, guarded. repeat wp_handler; guard_leaf. }
    exact (wp_outcome _ _ _ H _ _ Hrun resp eq_refl).
  - assert (wp (save_response config uuid4 datetime_now upload_fault blob_url
                              pyodbc_fault req)
               (guarded req (py "POST") w) w) as H.
    { unfold save_response, guarded. repeat wp_handler; guard_leaf. }
    exact (wp_outcome _ _ _ H _ _ Hrun resp eq_refl).
  - assert (wp (get_saved_responses isoformat pyodbc_fault identity req)
               (guarded req (py "GET") w) w) as H.
    { unfold get_saved_responses, guarded. repeat wp_handler; guard_leaf. }
    exact (wp_outcome _ _ _ H _ _ Hrun resp eq_refl).
Qed.

End MethodGuards.

(** Witness of [method_not_allowed_exactly_on_other_methods]: a GET to
    processComplaint. *)
Lemma method_not_allowed_exactly_on_other_methods_witness :
  let resp := plain_response (py "Method not allowed. Use POST.") 405 in
  (status_code resp = 405 ↔ method (Samples.request "GET" NoBody) ≠ py "POST")
  ∧ (status_code resp = 405 → Samples.world0 = Samples.world0 ∧ headers resp = ∅).
Proof.
  apply (proj1 (method_not_allowed_exactly_on_other_methods
                  Samples.config Samples.format_value
                  (Samples.completions (py "We are sorry.") (py "Staff"))
                  Samples.uuid4 Samples.datetime_now Samples.isoformat
                  Samples.upload_fault Samples.blob_url Samples.pyodbc_fault
                  Samples.identity (Samples.request "GET" NoBody)
                  Samples.world0 Samples.world0
                  (plain_response (py "Method not allowed. Use POST.") 405))).
  reflexivity.
Defined.
